(** * FIS_Script: the scan orchestrator [fisscript.py], embedded and verified

    The Python program sequences two external tools (nmap, gobuster) around
    a little text processing.  This development embeds the program function
    by function and proves (or refutes) the behavioural statements made
    about it.

    Conventions of the embedding.
    - A Python [str] is a [string]; a character is a code point below 256,
      and the Unicode predicates used by [str.strip], [str.split],
      [str.isdigit] and [int] are tabulated on that range.
    - A Python exception is a value of [exn]; a call that may raise returns
      a [result].
    - Console, standard input, file system, clock and subprocesses are an
      explicit [World] threaded through the code, with the behaviour of the
      operating system given by an [Env] of oracles. *)

From Stdlib Require Import String Ascii ZArith List Lia Bool.
From Stdlib Require Import Decimal DecimalString.
From stdpp Require Import base option list gmap strings sets sorting.

Local Open Scope string_scope.
Local Open Scope Z_scope.

(** ** Python strings *)

Module PyStr.

(** Code point of a character. *)
Definition ord (c : ascii) : N := N_of_ascii c.

Definition in_range (lo hi : N) (c : ascii) : bool :=
  ((lo <=? ord c) && (ord c <=? hi))%N.

(** [c.isspace()]: the characters [str.strip()] and [str.split()] treat as
    white space (TAB..CR, FS..US, SPACE, NEL, NBSP). *)
Definition isspace (c : ascii) : bool :=
  in_range 9 13 c || in_range 28 32 c || (ord c =? 133)%N || (ord c =? 160)%N.

(** ASCII decimal digits, the only characters below 256 that [int]
    accepts as digits. *)
Definition isdecimal (c : ascii) : bool := in_range 48 57 c.

(** [c.isdigit()] also holds for the superscript digits U+00B2, U+00B3
    and U+00B9, which [int] rejects. *)
Definition isdigit_char (c : ascii) : bool :=
  isdecimal c || (ord c =? 178)%N || (ord c =? 179)%N || (ord c =? 185)%N.

Fixpoint forallb_str (p : ascii -> bool) (s : string) : bool :=
  match s with
  | EmptyString => true
  | String c rest => p c && forallb_str p rest
  end.

Fixpoint map_str (f : ascii -> ascii) (s : string) : string :=
  match s with
  | EmptyString => EmptyString
  | String c rest => String (f c) (map_str f rest)
  end.

(** [s.isdigit()]: non-empty and made of digit characters. *)
Definition isdigit (s : string) : bool :=
  match s with
  | EmptyString => false
  | _ => forallb_str isdigit_char s
  end.

(** [sub in s]. *)
Fixpoint contains (sub s : string) : bool :=
  String.prefix sub s ||
  match s with
  | EmptyString => false
  | String _ rest => contains sub rest
  end.

(** [s.lstrip(chars)] / [s.rstrip(chars)] for a character class [p]. *)
Fixpoint lstrip_with (p : ascii -> bool) (s : string) : string :=
  match s with
  | EmptyString => EmptyString
  | String c rest => if p c then lstrip_with p rest else s
  end.

Fixpoint rstrip_with (p : ascii -> bool) (s : string) : string :=
  match s with
  | EmptyString => EmptyString
  | String c rest =>
      match rstrip_with p rest with
      | EmptyString => if p c then EmptyString else String c EmptyString
      | r => String c r
      end
  end.

Definition strip_with (p : ascii -> bool) (s : string) : string :=
  rstrip_with p (lstrip_with p s).

(** Membership of a character in the argument of [strip(chars)]. *)
Fixpoint char_in (chars : string) (c : ascii) : bool :=
  match chars with
  | EmptyString => false
  | String d rest => Ascii.eqb c d || char_in rest c
  end.

(** [s.strip(chars)] and [s.strip()]. *)
Definition strip_chars (chars s : string) : string := strip_with (char_in chars) s.
Definition strip (s : string) : string := strip_with isspace s.

(** [s.replace(old, new)] for a non-empty [old]: matches are found left to
    right and do not overlap; [skip] counts the characters of the current
    match still to be passed over. *)
Fixpoint replace_from (old new s : string) (skip : nat) : string :=
  match s with
  | EmptyString => EmptyString
  | String c rest =>
      match skip with
      | S k => replace_from old new rest k
      | O =>
          if String.prefix old s
          then new +:+ replace_from old new rest (String.length old - 1)
          else String c (replace_from old new rest 0)
      end
  end.

Definition replace (old new s : string) : string := replace_from old new s 0.

Definition cons_head (c : ascii) (l : list string) : list string :=
  match l with
  | [] => [String c EmptyString]
  | p :: ps => String c p :: ps
  end.

(** [s.split(sep)] for a non-empty [sep]. *)
Fixpoint split_from (sep s : string) (skip : nat) : list string :=
  match s with
  | EmptyString => [EmptyString]
  | String c rest =>
      match skip with
      | S k => split_from sep rest k
      | O =>
          if String.prefix sep s
          then EmptyString :: split_from sep rest (String.length sep - 1)
          else cons_head c (split_from sep rest 0)
      end
  end.

Definition split (sep s : string) : list string := split_from sep s 0.

(** [l[0]] on the list returned by [split], which is never empty. *)
Definition first (l : list string) : string := hd EmptyString l.

(** [s.split()]: split on runs of white space, dropping empty pieces. *)
Fixpoint split_ws_from (s : string) (cur : option string) : list string :=
  match s with
  | EmptyString => match cur with Some w => [w] | None => [] end
  | String c rest =>
      if isspace c
      then match cur with
           | Some w => w :: split_ws_from rest None
           | None => split_ws_from rest None
           end
      else split_ws_from rest
             (Some (match cur with
                    | Some w => w +:+ String c EmptyString
                    | None => String c EmptyString
                    end))
  end.

Definition split_ws (s : string) : list string := split_ws_from s None.

(** [sep.join(l)]. *)
Fixpoint join (sep : string) (l : list string) : string :=
  match l with
  | [] => EmptyString
  | [x] => x
  | x :: rest => x +:+ sep +:+ join sep rest
  end.

(** [s.lower()]: the upper-case letters below 256 are A..Z and the
    accented capitals U+00C0..U+00DE except the sign U+00D7. *)
Definition lower_char (c : ascii) : ascii :=
  if in_range 65 90 c || in_range 192 214 c || in_range 216 222 c
  then ascii_of_N (ord c + 32) else c.

Definition lower (s : string) : string := map_str lower_char s.

(** Digits of an [int] literal: one or more decimal digits, single
    underscores allowed between digits. *)
Fixpoint int_digits (s : string) (acc : Z) (after_digit : bool) : option Z :=
  match s with
  | EmptyString => if after_digit then Some acc else None
  | String c rest =>
      if isdecimal c
      then int_digits rest (10 * acc + (Z.of_N (ord c) - 48)) true
      else if Ascii.eqb c "_"
           then if after_digit then int_digits rest acc false else None
           else None
  end.

(** [int(s)] for a string: surrounding white space is ignored, an optional
    sign precedes the digits; [None] stands for [ValueError].  Integers are
    unbounded, as in Python; the cap that recent interpreters put on the
    number of digits of a literal is left out. *)
Definition int (s : string) : option Z :=
  match strip s with
  | String "+" rest => int_digits rest 0 false
  | String "-" rest => Z.opp <$> int_digits rest 0 false
  | t => int_digits t 0 false
  end.

(** [str(n)] for an integer. *)
Definition str_of_int (n : Z) : string := NilZero.string_of_int (Z.to_int n).

End PyStr.

(** ** Name sanitizer *)

(** Complement of the class [[^a-zA-Z0-9_\-./]]. *)
Definition allowed_characters (c : ascii) : bool :=
  PyStr.in_range 97 122 c || PyStr.in_range 65 90 c || PyStr.in_range 48 57 c ||
  Ascii.eqb c "_" || Ascii.eqb c "-" || Ascii.eqb c "." || Ascii.eqb c "/".

(** [allowed_characters.sub('_', name)]: every character matched by the
    negated class is replaced. *)
Definition re_sub_disallowed (name : string) : string :=
  PyStr.map_str (fun c => if allowed_characters c then c else "_"%char) name.

Definition sanitize_name (name : string) : string :=
  let sanitized := re_sub_disallowed name in
  PyStr.strip_chars "/" (PyStr.replace "//" "/" sanitized).

(** ** URL cleaner *)

(** [re.sub(r'^https?://', '', url)]: without [re.MULTILINE] the anchor
    only matches at index 0, so at most one occurrence is removed; the
    optional [s] is tried first. *)
Definition re_sub_scheme (url : string) : string :=
  if String.prefix "https://" url then String.substring 8 (String.length url - 8) url
  else if String.prefix "http://" url then String.substring 7 (String.length url - 7) url
  else url.

Definition clean_url (url : string) : string :=
  let url := re_sub_scheme url in
  let url := PyStr.first (PyStr.split "#" url) in
  let url := PyStr.first (PyStr.split "?" url) in
  sanitize_name url.

(** ** Exceptions, results and the world *)

(** The exceptions the program can meet.  The operating-system errors
    carry the text [str(e)] that the handlers print. *)
Inductive exn : Type :=
| FileNotFoundError (msg : string)
| PermissionError (msg : string)
| OSError (msg : string)
| ValueError
| EOFError.

(** [except OSError] catches the class and its subclasses. *)
Definition is_OSError (e : exn) : bool :=
  match e with
  | FileNotFoundError _ | PermissionError _ | OSError _ => true
  | ValueError | EOFError => false
  end.

(** [except FileNotFoundError] catches that class only. *)
Definition is_FileNotFoundError (e : exn) : bool :=
  match e with
  | FileNotFoundError _ => true
  | _ => false
  end.

Definition exn_str (e : exn) : string :=
  match e with
  | FileNotFoundError msg | PermissionError msg | OSError msg => msg
  | ValueError | EOFError => EmptyString
  end.

Inductive result (A : Type) : Type :=
| Ok (a : A)
| Raise (e : exn).
Arguments Ok {A} a.
Arguments Raise {A} e.

(** What the program does to the outside, in order. *)
Inductive event : Type :=
| Print (text : string)                       (* [print(text)] *)
| Prompt (text : string)                      (* the prompt of [input(text)] *)
| Exec (argv : list string) (stdout_file : string).  (* [subprocess.run] *)

(** Outcome of launching a subprocess: it ran and wrote [output] to its
    standard output (its exit status is not looked at), or the launch
    itself raised. *)
Inductive launch : Type :=
| Ran (output : string)
| LaunchFailed (e : exn).

(** The operating system and the Python runtime, as oracles.  The order in
    which a [set] enumerates its elements is the runtime's business: the
    program only relies on every element coming exactly once. *)
Record Env : Type := {
  cwd : string;                          (* [os.getcwd()] *)
  path_exists : string -> bool;          (* [os.path.exists] *)
  makedirs : string -> option exn;       (* [os.makedirs]: [None] on success *)
  open_w : string -> option exn;         (* [open(path, "w")]: [None] on success *)
  run_process : list string -> launch;   (* [subprocess.run(argv, stdout=file)] *)
  clock : nat -> string;                 (* n-th [datetime.now().strftime(...)] *)
  set_order : gset Z -> list Z;          (* [list(s)] for a set of integers *)
  set_order_perm : forall s, set_order s ≡ₚ elements s
}.

(** The mutable part: console trace, text files and clock readings.
    Standard input (the lines still to be read) is threaded next to it. *)
Record World : Type := {
  trace : list event;
  files : gmap string string;
  ticks : nat
}.

Definition log (e : event) (w : World) : World :=
  {| trace := trace w ++ [e]; files := files w; ticks := ticks w |}.

Definition write_file (path text : string) (w : World) : World :=
  {| trace := trace w; files := <[path := text]> (files w); ticks := ticks w |}.

Definition tick (w : World) : World :=
  {| trace := trace w; files := files w; ticks := S (ticks w) |}.

(** A computation reads standard input, changes the world and returns or
    raises. *)
Definition IO (A : Type) : Type :=
  list string -> World -> result A * (list string * World).

Definition ret {A} (a : A) : IO A := fun inp w => (Ok a, (inp, w)).

Definition bind {A B} (m : IO A) (k : A -> IO B) : IO B :=
  fun inp w =>
    match m inp w with
    | (Ok a, (inp', w')) => k a inp' w'
    | (Raise e, s) => (Raise e, s)
    end.

Declare Scope io_scope.
Delimit Scope io_scope with io.
Notation "x ← y ; z" := (bind y (fun x => z)) (only parsing) : io_scope.
Notation "y ;; z" := (bind y (fun _ => z)) (only parsing) : io_scope.

(** [try: body except <handles> as e: handler(e)]. *)
Definition try_except {A} (body : IO A) (handles : exn -> bool)
    (handler : exn -> IO A) : IO A :=
  fun inp w =>
    match body inp w with
    | (Raise e, (inp', w')) =>
        if handles e then handler e inp' w' else (Raise e, (inp', w'))
    | r => r
    end.

Definition print (text : string) : IO unit :=
  fun inp w => (Ok tt, (inp, log (Print text) w)).

(** [input(prompt)]: the prompt is written, then a line is read; at end of
    input [EOFError] is raised. *)
Definition input (prompt : string) : IO string :=
  fun inp w =>
    match inp with
    | [] => (Raise EOFError, ([], log (Prompt prompt) w))
    | line :: rest => (Ok line, (rest, log (Prompt prompt) w))
    end.

Definition nl : string := String "010" EmptyString.

(** Lines of a text file as iteration and [readlines] give them: each line
    keeps its terminator, and in text mode the terminators CR and CR LF are
    read as LF. *)
Fixpoint readlines (text : string) : list string :=
  match text with
  | EmptyString => []
  | String "010" rest => nl :: readlines rest
  | String "013" (String "010" rest) => nl :: readlines rest
  | String "013" rest => nl :: readlines rest
  | String c rest => PyStr.cons_head c (readlines rest)
  end.

(** [os.path.join(a, b)] of posixpath. *)
Definition path_join (a b : string) : string :=
  if String.prefix "/" b then b
  else match a with
       | EmptyString => b
       | _ => if PyStr.contains "/" (String.substring (String.length a - 1) 1 a)
              then a +:+ b else a +:+ "/" +:+ b
       end.

(** A value that is an [int] or a [str]: the ports handed to
    [run_gobuster] are integers on one path and strings on the other. *)
Inductive pyval : Type :=
| PInt (n : Z)
| PStr (s : string).

(** [str(v)], as used by f-strings. *)
Definition py_str (v : pyval) : string :=
  match v with
  | PInt n => PyStr.str_of_int n
  | PStr s => s
  end.

(** [v == n] for an integer [n]: a [str] never equals an [int]. *)
Definition py_eq_int (v : pyval) (n : Z) : bool :=
  match v with
  | PInt m => m =? n
  | PStr _ => false
  end.

(** [web_ports.remove(x)]: the first occurrence goes. *)
Fixpoint list_remove (x : Z) (l : list Z) : list Z :=
  match l with
  | [] => []
  | y :: rest => if x =? y then rest else y :: list_remove x rest
  end.

(** [x in l] on a list of integers. *)
Definition list_in (x : Z) (l : list Z) : bool := existsb (Z.eqb x) l.

(** ** The program *)

Section Program.

Variable E : Env.

Local Open Scope io_scope.

(** [datetime.now().strftime("%Y_%m_%d_%H_%M_%S")]. *)
Definition now : IO string :=
  fun inp w => (Ok (clock E (ticks w)), (inp, tick w)).

(** The body shared by both runners:
    [with open(output_file, "w") as file:
         subprocess.run(command.split(), stdout=file, text=True)].
    Opening truncates or creates the file; the child then writes to it. *)
Definition run_to_file (output_file command : string) : IO unit :=
  fun inp w =>
    match open_w E output_file with
    | Some e => (Raise e, (inp, w))
    | None =>
        let argv := PyStr.split_ws command in
        let w := log (Exec argv output_file) (write_file output_file EmptyString w) in
        match run_process E argv with
        | LaunchFailed e => (Raise e, (inp, w))
        | Ran output => (Ok tt, (inp, write_file output_file output w))
        end
    end.

(** *** get_output_directory *)

(** Lines 35-45, after the name has been accepted: [Ok (Some dir)] is
    [return dir], [Ok None] is the [continue] of the handler. *)
Definition ensure_directory (sanitized_dir : string) (w : World)
    : result (option string) * World :=
  let sanitized_dir := if String.eqb sanitized_dir "." then cwd E else sanitized_dir in
  if negb (path_exists E sanitized_dir) then
    let w := log (Print ("Directory '" +:+ sanitized_dir +:+ "' does not exist. Creating it...")) w in
    match makedirs E sanitized_dir with
    | None => (Ok (Some sanitized_dir), w)
    | Some e =>
        if is_OSError e
        then (Ok None, log (Print ("Error creating directory: " +:+ exn_str e)) w)
        else (Raise e, w)
    end
  else (Ok (Some sanitized_dir), w).

(** The [while True] loop; every iteration reads at least one line. *)
Fixpoint get_output_directory (inp : list string) (w : World)
    : result string * (list string * World) :=
  let prompt := Prompt "Enter the output directory (use '.' for the current working directory): " in
  match inp with
  | [] => (Raise EOFError, ([], log prompt w))
  | line :: inp =>
      let w := log prompt w in
      let output_dir := PyStr.strip line in
      let sanitized_dir := sanitize_name output_dir in
      if negb (String.eqb sanitized_dir output_dir) then
        let w := log (Print ("Warning: The directory name contained invalid characters. Sanitized to: " +:+ sanitized_dir)) w in
        let prompt2 := Prompt "Do you want to use the sanitized directory name? (y/n): " in
        match inp with
        | [] => (Raise EOFError, ([], log prompt2 w))
        | line2 :: inp =>
            let w := log prompt2 w in
            let confirm := PyStr.lower (PyStr.strip line2) in
            if negb (String.eqb confirm "y")
            then get_output_directory inp w
            else match ensure_directory sanitized_dir w with
                 | (Ok (Some dir), w) => (Ok dir, (inp, w))
                 | (Ok None, w) => get_output_directory inp w
                 | (Raise e, w) => (Raise e, (inp, w))
                 end
        end
      else match ensure_directory sanitized_dir w with
           | (Ok (Some dir), w) => (Ok dir, (inp, w))
           | (Ok None, w) => get_output_directory inp w
           | (Raise e, w) => (Raise e, (inp, w))
           end
  end.

(** *** parse_nmap_output *)

(** The test of line 54. *)
Definition is_web_line (line : string) : bool :=
  PyStr.contains "open" line &&
  (PyStr.contains "http" line || PyStr.contains "https" line).

(** [line.split("/")[0].strip()]. *)
Definition port_token (line : string) : string :=
  PyStr.strip (PyStr.first (PyStr.split "/" line)).

(** The [for line in file] loop over the set under construction; a token
    that [int] rejects raises [ValueError] out of the loop. *)
Fixpoint scan_lines (lines : list string) (web_ports : gset Z) : result (gset Z) :=
  match lines with
  | [] => Ok web_ports
  | line :: rest =>
      if is_web_line line then
        match PyStr.int (port_token line) with
        | Some port => scan_lines rest ({[ port ]} ∪ web_ports)
        | None => Raise ValueError
        end
      else scan_lines rest web_ports
  end.

(** [open(path, "r")]: the text of the file, or [FileNotFoundError]. *)
Definition open_r (path : string) : IO string :=
  fun inp w =>
    match files w !! path with
    | Some text => (Ok text, (inp, w))
    | None => (Raise (FileNotFoundError path), (inp, w))
    end.

(** [list(web_ports)]: the elements of the set, each once, in the order
    the runtime enumerates them. *)
Definition list_of_set (web_ports : gset Z) : list Z := set_order E web_ports.

Definition parse_nmap_output (nmap_output_file : string) : IO (list Z) :=
  web_ports ←
    try_except
      (text ← open_r nmap_output_file;
       match scan_lines (readlines text) ∅ with
       | Ok web_ports => ret web_ports
       | Raise e => fun inp w => (Raise e, (inp, w))
       end)
      is_FileNotFoundError
      (fun _ =>
         print ("Error: Nmap output file " +:+ nmap_output_file +:+ " not found.");;
         ret ∅);
  ret (list_of_set web_ports).

(** *** run_nmap *)

Definition option_mapping : gmap string string :=
  list_to_map
    [ ("1", "-sS"); ("2", "-v"); ("3", "-p-"); ("4", "-sV"); ("5", "");
      ("6", "-sn"); ("7", "-O"); ("8", "-sC"); ("9", "-A"); ("10", "-n") ].

(** [x in l] on a list of strings. *)
Definition str_in (x : string) (l : list string) : bool := existsb (String.eqb x) l.

(** The option loop of lines 95-109; one line is read per iteration. *)
Fixpoint nmap_options_loop (inp : list string) (nmap_options : list string) (w : World)
    : result (list string) * (list string * World) :=
  let prompt := Prompt "Enter your choice (1-10 or 'done'): " in
  match inp with
  | [] => (Raise EOFError, ([], log prompt w))
  | line :: inp =>
      let w := log prompt w in
      let choice := PyStr.strip line in
      if String.eqb choice "done" then
        match nmap_options with
        | [] => (Ok [EmptyString],
                 (inp, log (Print "No options selected. Adding default top 1000 port scan.") w))
        | _ => (Ok nmap_options, (inp, w))
        end
      else
        match option_mapping !! choice with
        | Some flag =>
            if negb (str_in flag nmap_options)
            then nmap_options_loop inp (nmap_options ++ [flag])
                   (log (Print ("Added option " +:+ choice)) w)
            else nmap_options_loop inp nmap_options
                   (log (Print ("Option " +:+ choice +:+ " already added.")) w)
        | None =>
            nmap_options_loop inp nmap_options
              (log (Print "Invalid choice. Please select a valid option.") w)
        end
  end.

Definition nmap_output_name (sanitized_ip_address timestamp : string) : string :=
  "nmap_scan_" +:+ sanitized_ip_address +:+ "_" +:+ timestamp +:+ ".txt".

Definition nmap_command (nmap_options_str ip_address : string) : string :=
  "nmap " +:+ nmap_options_str +:+ " " +:+ ip_address.

(** Lines 111-132: everything after the option loop. *)
Definition run_nmap_scan (ip_address output_dir : string) (nmap_options : list string)
    : IO string :=
  let nmap_options_str := PyStr.join " " nmap_options in
  let sanitized_ip_address := clean_url ip_address in
  timestamp ← now;
  let output_file := path_join output_dir (nmap_output_name sanitized_ip_address timestamp) in
  let command := nmap_command nmap_options_str ip_address in
  print (nl +:+ "Running the Nmap scan: " +:+ command);;
  try_except
    (run_to_file output_file command;;
     print (nl +:+ "Nmap scan completed. Results saved to: " +:+ output_file))
    is_FileNotFoundError
    (fun e => print ("Error saving results: " +:+ exn_str e));;
  ret output_file.

Definition run_nmap (ip_address output_dir : string) : IO string :=
  print (nl +:+ "Configuring Nmap scan...");;
  print (nl +:+ "Choose the type of scan options (you can select multiple):");;
  print "1. Stealth scan (SYN scan)";;
  print "2. Verbose output";;
  print "3. Full port scan (all 65535 ports)";;
  print "4. Version scan";;
  print "5. Top 1000 port scan (default)";;
  print "6. Ping scan (determine live hosts)";;
  print "7. OS detection";;
  print "8. Script scan (default Nmap scripts)";;
  print "9. Aggressive scan (OS + version + script + traceroute)";;
  print "10. Disable DNS resolution (faster scans)";;
  print (nl +:+ "Type the numbers corresponding to your choices. Type 'done' when finished.");;
  nmap_options ← (fun inp w => nmap_options_loop inp [] w);
  run_nmap_scan ip_address output_dir nmap_options.

(** *** run_gobuster *)

(** Line 138. *)
Definition gobuster_protocol (port : pyval) : string :=
  if py_eq_int port 443 then "https" else "http".

(** Line 139. *)
Definition gobuster_url (ip_address : string) (port : pyval) : string :=
  gobuster_protocol port +:+ "://" +:+ ip_address +:+ ":" +:+ py_str port.

Definition gobuster_output_name (port : pyval) (timestamp : string) : string :=
  py_str port +:+ "_gobuster_scan_" +:+ timestamp +:+ ".txt".

(** Line 144. *)
Definition gobuster_command (url wordlist : string) : string :=
  "gobuster dir -u " +:+ url +:+ " -w " +:+ wordlist.

(** The body of the [for] loop, lines 138-151. *)
Definition gobuster_port (ip_address : string) (port : pyval) (output_dir : string)
    : IO unit :=
  let url := gobuster_url ip_address port in
  line ← input ("Enter the path to your wordlist for port " +:+ py_str port +:+ ": ");
  let wordlist := PyStr.strip line in
  timestamp ← now;
  let output_file := path_join output_dir (gobuster_output_name port timestamp) in
  let command := gobuster_command url wordlist in
  print (nl +:+ "Running Gobuster scan on port " +:+ py_str port +:+ ": " +:+ command);;
  try_except
    (run_to_file output_file command;;
     print ("Gobuster scan for port " +:+ py_str port
            +:+ " completed. Results saved to: " +:+ output_file))
    is_FileNotFoundError
    (fun e => print ("Error saving results: " +:+ exn_str e)).

Fixpoint run_gobuster (ip_address : string) (web_ports : list pyval) (output_dir : string)
    : IO unit :=
  match web_ports with
  | [] => ret tt
  | port :: rest =>
      gobuster_port ip_address port output_dir;;
      run_gobuster ip_address rest output_dir
  end.

(** *** main *)

(** The two scan paths of [main] (choice "1" and choice "3") are the same
    code up to a few messages and one [return]. *)
Inductive scan_path : Type :=
| NmapThenAsk     (* choice "1" *)
| BothTools.      (* choice "3" *)

(** [', '.join(map(str, ports))]. *)
Definition ports_str (ports : list Z) : string :=
  PyStr.join ", " (map PyStr.str_of_int ports).

(** The review pass of lines 181-184 / 256-259: what gets printed. *)
Definition review_lines (web_ports : list Z) (lines : list string) : list string :=
  flat_map
    (fun line =>
       flat_map
         (fun port =>
            if PyStr.contains (PyStr.str_of_int port +:+ "/") line
            then ["Port " +:+ PyStr.str_of_int port +:+ ": " +:+ PyStr.strip line]
            else [])
         web_ports)
    lines.

Fixpoint print_all (texts : list string) : IO unit :=
  match texts with
  | [] => ret tt
  | text :: rest => print text;; print_all rest
  end.

(** What one entry of the selection sub-loop leads to (lines 209-217 and
    284-292). *)
Inductive select_outcome : Type :=
| SelDone
| SelAdd (selected_port : Z)
| SelInvalid
| SelRaise (e : exn).

Definition select_decide (port_choice : string) (web_ports : list Z) : select_outcome :=
  if String.eqb port_choice "done" then SelDone
  else if PyStr.isdigit port_choice then
    match PyStr.int port_choice with
    | None => SelRaise ValueError
    | Some n => if list_in n web_ports then SelAdd n else SelInvalid
    end
  else SelInvalid.

(** The selection sub-loop; the state is the pair of lists [web_ports]
    (still available) and [gobuster_ports] (selected so far). *)
Fixpoint select_ports (path : scan_path) (inp : list string)
    (web_ports gobuster_ports : list Z) (w : World)
    : result (list Z * list Z) * (list string * World) :=
  let w := log (Print (match web_ports with
                       | [] => "No ports left to select."
                       | _ => nl +:+ "Ports available for selection: " +:+ ports_str web_ports
                       end)) w in
  let w := log (Print (match gobuster_ports with
                       | [] => "No ports added yet."
                       | _ => "Ports already added for Gobuster scan: " +:+ ports_str gobuster_ports
                       end)) w in
  let w := log (Prompt (match path with
                        | NmapThenAsk => "Enter a port to scan (or 'done' to finish selection): "
                        | BothTools => "Enter a port to scan (or 'done' to finish): "
                        end)) w in
  match inp with
  | [] => (Raise EOFError, ([], w))
  | line :: inp =>
      match select_decide (PyStr.strip line) web_ports with
      | SelDone => (Ok (web_ports, gobuster_ports), (inp, w))
      | SelAdd selected_port =>
          select_ports path inp (list_remove selected_port web_ports)
            (gobuster_ports ++ [selected_port])
            (log (Print ("Added port " +:+ PyStr.str_of_int selected_port
                         +:+ " for Gobuster scan.")) w)
      | SelInvalid =>
          select_ports path inp web_ports gobuster_ports
            (log (Print ("Invalid input. Please enter a valid port from the list: "
                         +:+ ports_str web_ports +:+ ".")) w)
      | SelRaise e => (Raise e, (inp, w))
      end
  end.

(** The strategy loop of lines 189-231 / 265-303. *)
Fixpoint gobuster_menu (path : scan_path) (ip_address output_dir : string)
    (inp : list string) (web_ports : list Z) (w : World)
    : result unit * (list string * World) :=
  let w := log (Print (nl +:+ "Do you want to:")) w in
  let w := log (Print ("1. Scan all detected ports (" +:+ ports_str web_ports
                       +:+ ") with Gobuster")) w in
  let w := log (Print "2. Select specific ports") w in
  let w := log (Print (match path with
                       | NmapThenAsk => "3. Skip Gobuster and exit"
                       | BothTools => "3. Exit without running Gobuster"
                       end)) w in
  let w := log (Prompt "Enter your choice (1/2/3): ") w in
  match inp with
  | [] => (Raise EOFError, ([], w))
  | line :: inp =>
      let prompt := PyStr.strip line in
      if String.eqb prompt "1" then
        (print (nl +:+ "Running Gobuster on all detected ports: " +:+ ports_str web_ports);;
         run_gobuster ip_address (map PInt web_ports) output_dir) inp w
      else if String.eqb prompt "2" then
        match select_ports path inp web_ports [] w with
        | (Ok (_, gobuster_ports), (inp, w)) =>
            match gobuster_ports with
            | [] => print (match path with
                           | NmapThenAsk => "No ports selected. Skipping Gobuster."
                           | BothTools => "No ports selected. Skipping Gobuster scan."
                           end) inp w
            | _ => (print (nl +:+ "Final list of ports selected for Gobuster scan: "
                           +:+ ports_str gobuster_ports);;
                    run_gobuster ip_address (map PInt gobuster_ports) output_dir) inp w
            end
        | (Raise e, s) => (Raise e, s)
        end
      else if String.eqb prompt "3" then
        print (match path with
               | NmapThenAsk => "No further scans selected. Skipping Gobuster."
               | BothTools => "No further scans selected. Exiting script."
               end) inp w
      else
        gobuster_menu path ip_address output_dir inp web_ports
          (log (Print "Invalid input. Please type '1', '2', or '3'.") w)
  end.

(** Lines 169-233 ([NmapThenAsk]) and 244-303 ([BothTools]). *)
Definition scan_then_gobuster (path : scan_path) (ip_address output_dir : string)
    : IO unit :=
  nmap_output_file ← run_nmap ip_address output_dir;
  web_ports ← parse_nmap_output nmap_output_file;
  match web_ports with
  | [] =>
      match path with
      | NmapThenAsk => print "No potential web application ports detected. Skipping Gobuster."
      | BothTools => ret tt
      end
  | _ =>
      print (nl +:+ "Potential Web Application Ports Detected:");;
      print "Review the following lines to ensure these are valid web applications before proceeding.";;
      proceed ←
        try_except
          (text ← open_r nmap_output_file;
           print_all (review_lines web_ports (readlines text));;
           ret true)
          is_FileNotFoundError
          (fun _ =>
             print ("Error: Could not open Nmap output file " +:+ nmap_output_file
                    +:+ " for review.");;
             ret (match path with NmapThenAsk => true | BothTools => false end));
      if proceed : bool
      then (fun inp w => gobuster_menu path ip_address output_dir inp web_ports w)
      else ret tt
  end.

(** Lines 239-242: the ports typed by the user stay strings. *)
Definition gobuster_only (ip_address output_dir : string) : IO unit :=
  print (nl +:+ "Configuring Gobuster scan...");;
  line ← input "Enter the ports to scan (comma-separated, e.g., 80,443): ";
  let web_ports := PyStr.split "," line in
  run_gobuster ip_address (map PStr web_ports) output_dir.

Definition main : IO unit :=
  print "Choose the tool to use:";;
  print "1. Nmap";;
  print "2. Gobuster";;
  print "3. Both Nmap and Gobuster";;
  line ← input "Enter your choice (1/2/3): ";
  let choice := PyStr.strip line in
  if str_in choice ["1"; "2"; "3"] then
    line ← input "Enter the target IP address or domain: ";
    let ip_address := PyStr.strip line in
    output_dir ← get_output_directory;
    if String.eqb choice "1" then scan_then_gobuster NmapThenAsk ip_address output_dir
    else if String.eqb choice "2" then gobuster_only ip_address output_dir
    else if String.eqb choice "3" then scan_then_gobuster BothTools ip_address output_dir
    else ret tt
  else
    print "Invalid choice. Exiting.".

End Program.

(** ** A sample run *)

Module Sample.

Definition scan_text : string :=
  "22/tcp open ssh" +:+ nl +:+ "80/tcp open http" +:+ nl +:+ "443/tcp open https" +:+ nl.

(** A machine on which everything works and nmap reports [scan_text]. *)
Definition env : Env := {|
  cwd := "/home/user";
  path_exists := fun _ => true;
  makedirs := fun _ => None;
  open_w := fun _ => None;
  run_process := fun argv =>
    match argv with
    | tool :: _ => if String.eqb tool "nmap" then Ran scan_text else Ran EmptyString
    | [] => Ran EmptyString
    end;
  clock := fun n => "2024_01_01_00_00_0" +:+ PyStr.str_of_int (Z.of_nat n);
  set_order := fun s => merge_sort Z.le (elements s);
  set_order_perm := fun s => merge_sort_Permutation Z.le (elements s)
|}.

Definition world0 : World := {| trace := []; files := ∅; ticks := 0 |}.

(** A result file with a script line of nmap in it: the line mentions
    "open" and "http" and has no port in front. *)
Definition malformed_text : string :=
  "80/tcp open http" +:+ nl +:+
  "|_http-open-proxy: Proxy might be redirecting requests" +:+ nl.

Definition world_with (path text : string) : World :=
  {| trace := []; files := {[ path := text ]}; ticks := 0 |}.

(** The same machine with an output directory that is not writable. *)
Definition env_denied : Env := {|
  cwd := cwd env;
  path_exists := path_exists env;
  makedirs := makedirs env;
  open_w := fun path => Some (PermissionError ("[Errno 13] Permission denied: '" +:+ path +:+ "'"));
  run_process := run_process env;
  clock := clock env;
  set_order := set_order env;
  set_order_perm := set_order_perm env
|}.

(** The same machine where the directory of the output file is missing. *)
Definition env_no_dir : Env := {|
  cwd := cwd env;
  path_exists := path_exists env;
  makedirs := makedirs env;
  open_w := fun path => Some (FileNotFoundError ("[Errno 2] No such file or directory: '" +:+ path +:+ "'"));
  run_process := run_process env;
  clock := clock env;
  set_order := set_order env;
  set_order_perm := set_order_perm env
|}.

(** The same machine in front of a host with no web service. *)
Definition env_quiet_host : Env := {|
  cwd := cwd env;
  path_exists := path_exists env;
  makedirs := makedirs env;
  open_w := open_w env;
  run_process := fun argv => Ran ("22/tcp open ssh" +:+ nl);
  clock := clock env;
  set_order := set_order env;
  set_order_perm := set_order_perm env
|}.

(** The same machine without the scanning tools installed. *)
Definition env_no_tool : Env := {|
  cwd := cwd env;
  path_exists := path_exists env;
  makedirs := makedirs env;
  open_w := open_w env;
  run_process := fun argv =>
    LaunchFailed (FileNotFoundError "[Errno 2] No such file or directory: 'nmap'");
  clock := clock env;
  set_order := set_order env;
  set_order_perm := set_order_perm env
|}.

End Sample.

(** ** Specification-side notions

    The statements below are phrased with these definitions, which follow
    the wording of the specification rather than the code. *)

(** [sub] occurs somewhere in [s]. *)
Definition occurs (sub s : string) : Prop :=
  exists pre post, s = pre +:+ sub +:+ post.

(** The part of [s] before the first character satisfying [stop]. *)
Fixpoint before (stop : ascii -> bool) (s : string) : string :=
  match s with
  | EmptyString => EmptyString
  | String c rest => if stop c then EmptyString else String c (before stop rest)
  end.

(** The token before the first "/" of a line. *)
Definition leading_token (line : string) : string :=
  before (Ascii.eqb "/") line.

(** A candidate web service line: it contains "open" and also "http" or
    "https". *)
Definition web_service_line (line : string) : Prop :=
  occurs "open" line /\ (occurs "http" line \/ occurs "https" line).

(** A URL truncated at its first "#" or "?" marker. *)
Definition truncate_at_marker (url : string) : string :=
  before (fun c => Ascii.eqb "#" c || Ascii.eqb "?" c) url.

(** Every character is a letter, a digit or one of [_ - . /]. *)
Definition only_allowed (s : string) : Prop :=
  PyStr.forallb_str allowed_characters s = true.

(** [s] neither starts nor ends with the separator "/". *)
Definition trimmed (s : string) : Prop :=
  (forall rest, s <> "/" +:+ rest) /\ (forall rest, s <> rest +:+ "/").

(** The port of a line, where the line is a candidate and its token is an
    integer. *)
Definition line_port (line : string) (n : Z) : Prop :=
  web_service_line line /\ PyStr.int (PyStr.strip (leading_token line)) = Some n.

Definition token_ok (line : string) : Prop :=
  web_service_line line -> is_Some (PyStr.int (PyStr.strip (leading_token line))).

(** The events of one content-discovery scan on a machine where the scan
    works: the wordlist prompt, the announcement of the command, the launch
    with its output file, the completion message. *)
Definition scan_events (output_dir port_text url wordlist_line timestamp : string)
    : list event :=
  let wordlist := PyStr.strip wordlist_line in
  let output_file :=
    path_join output_dir (port_text +:+ "_gobuster_scan_" +:+ timestamp +:+ ".txt") in
  let command := "gobuster dir -u " +:+ url +:+ " -w " +:+ wordlist in
  [ Prompt ("Enter the path to your wordlist for port " +:+ port_text +:+ ": ");
    Print (nl +:+ "Running Gobuster scan on port " +:+ port_text +:+ ": " +:+ command);
    Exec (PyStr.split_ws command) output_file;
    Print ("Gobuster scan for port " +:+ port_text
           +:+ " completed. Results saved to: " +:+ output_file) ].

(** One scan after the other: the targets are pairs of a port as it is
    displayed and the URL to scan; the n-th scan reads the n-th line of
    input and the n-th clock value. *)
Fixpoint scans_events (E : Env) (output_dir : string) (targets : list (string * string))
    (lines : list string) (n : nat) : list event :=
  match targets, lines with
  | (port_text, url) :: targets, line :: lines =>
      (scan_events output_dir port_text url line (clock E n)
       ++ scans_events E output_dir targets lines (S n))%list
  | _, _ => []
  end.

(** A machine on which every output file can be opened and every tool
    starts. *)
Definition works (E : Env) : Prop :=
  (forall path, open_w E path = None) /\
  (forall argv, exists output, run_process E argv = Ran output).

(** The URL the specification gives for an integer port. *)
Definition port_url (ip_address : string) (port : Z) : string :=
  (if port =? 443 then "https" else "http")
  +:+ "://" +:+ ip_address +:+ ":" +:+ PyStr.str_of_int port.

(** The command lines launched so far. *)
Definition launched (w : World) : list (list string) :=
  omap (fun e => match e with Exec argv _ => Some argv | _ => None end) (trace w).

(** An event that launches nothing. *)
Definition console_only (e : event) : Prop :=
  match e with
  | Exec _ _ => False
  | _ => True
  end.

(** The states the selection sub-loop passes through on the entries
    [inp], starting from the available ports [web_ports] and the selected
    ports [gobuster_ports]: one state per turn of the loop. *)
Fixpoint select_visits (inp : list string) (web_ports gobuster_ports : list Z)
    : list (list Z * list Z) :=
  (web_ports, gobuster_ports) ::
  match inp with
  | [] => []
  | line :: inp =>
      match select_decide (PyStr.strip line) web_ports with
      | SelAdd selected_port =>
          select_visits inp (list_remove selected_port web_ports)
            (gobuster_ports ++ [selected_port])
      | SelInvalid => select_visits inp web_ports gobuster_ports
      | SelDone | SelRaise _ => []
      end
  end.

(** No port is both selected and still available, and no port is listed
    twice. *)
Definition selection_ok (web_ports gobuster_ports : list Z) : Prop :=
  NoDup web_ports /\ NoDup gobuster_ports /\
  forall port, port ∈ gobuster_ports -> port ∉ web_ports.

(** The user types "done" at some point. *)
Definition says_done (inp : list string) : Prop :=
  exists line, line ∈ inp /\ PyStr.strip line = "done".

(** No line of a scan output is a candidate web service line. *)
Definition no_web_line (output : string) : Prop :=
  Forall (fun line => ~ web_service_line line) (readlines output).

(** The prompts written so far. *)
Definition prompted (w : World) : list string :=
  omap (fun e => match e with Prompt text => Some text | _ => None end) (trace w).

(** [s] has no white space in it. *)
Definition no_space (s : string) : Prop :=
  PyStr.forallb_str (fun c => negb (PyStr.isspace c)) s = true.

(** [s] is not the empty string. *)
Definition nonempty (s : string) : bool := negb (String.eqb s "").

(** The exceptions that end the program on a machine where files can be
    written and tools start: the input ran out, or [int] was given
    something that is no integer. *)
Definition input_exn (e : exn) : Prop := e = EOFError \/ e = ValueError.

(** A computation that raises nothing outside [P]. *)
Definition raises_only {A} (P : exn -> Prop) (m : IO A) : Prop :=
  forall inp w, match fst (m inp w) with Ok _ => True | Raise e => P e end.

(** An answer to the strategy menu that is none of "1", "2", "3". *)
Definition not_a_menu_choice (line : string) : Prop :=
  PyStr.strip line <> "1" /\ PyStr.strip line <> "2" /\ PyStr.strip line <> "3".

(** [makedirs] fails with operating-system errors only. *)
Definition makedirs_raises_OSError (E : Env) : Prop :=
  forall path e, makedirs E path = Some e -> is_OSError e = true.

(** What a state keeps when only the console was used in between. *)
Definition quiet (w w' : World) : Prop :=
  files w' = files w /\ launched w' = launched w /\ ticks w' = ticks w.

(** A line of text: no line feed and no carriage return in it. *)
Definition one_line (line : string) : Prop :=
  PyStr.forallb_str (fun c => negb (Ascii.eqb c "010" || Ascii.eqb c "013")) line = true.

(** The text of a file written line by line, a line feed after each. *)
Fixpoint text_of_lines (lines : list string) : string :=
  match lines with
  | [] => EmptyString
  | line :: rest => line +:+ nl +:+ text_of_lines rest
  end.

(** The answers given to the option menu before the first "done". *)
Fixpoint answers_before_done (inp : list string) : list string :=
  match inp with
  | [] => []
  | line :: rest =>
      if String.eqb (PyStr.strip line) "done" then []
      else PyStr.strip line :: answers_before_done rest
  end.

(** The elements of a list in the order of their first occurrence, each
    once, after those of [seen]. *)
Fixpoint distinct_after (seen l : list string) : list string :=
  match l with
  | [] => seen
  | x :: rest => distinct_after (if str_in x seen then seen else seen ++ [x]) rest
  end.

(** The flags of the valid choices typed before "done", each once, in the
    order in which they were first chosen. *)
Definition chosen_flags (inp : list string) : list string :=
  distinct_after [] (omap (fun choice => option_mapping !! choice) (answers_before_done inp)).

(** The command line of the port scan for the flags chosen and a target. *)
Definition nmap_argv (flags : list string) (ip_address : string) : list string :=
  ("nmap" :: filter (fun flag => nonempty flag = true) flags
          ++ PyStr.split_ws ip_address)%list.

(** The command line of one content-discovery scan. *)
Definition gobuster_argv (url wordlist_line : string) : list string :=
  (["gobuster"; "dir"; "-u"] ++ PyStr.split_ws url
     ++ ["-w"] ++ PyStr.split_ws (PyStr.strip wordlist_line))%list.

(** A directory name that [get_output_directory] may use: clean as typed,
    or sanitized and confirmed with "y" on the next line; [rest] is the
    input left after it. *)
Definition accepted_name (line : string) (after rest : list string) : Prop :=
  (sanitize_name (PyStr.strip line) = PyStr.strip line /\ rest = after) \/
  (sanitize_name (PyStr.strip line) <> PyStr.strip line /\
   exists answer, after = answer :: rest /\ PyStr.lower (PyStr.strip answer) = "y").

(** The directory for an accepted name: "." stands for the working
    directory. *)
Definition directory_of (E : Env) (line : string) : string :=
  if String.eqb (sanitize_name (PyStr.strip line)) "." then cwd E
  else sanitize_name (PyStr.strip line).


(** ** Facts about Python strings *)

Section StringFacts.

Lemma append_cons (c : ascii) (s t : string) : String c s +:+ t = String c (s +:+ t).
Proof. reflexivity. Qed.

Lemma append_nil_l (t : string) : "" +:+ t = t.
Proof. reflexivity. Qed.

Lemma append_nil_r (s : string) : s +:+ "" = s.
Proof. induction s as [|c s IH]; [reflexivity | now rewrite append_cons, IH]. Qed.

Lemma append_assoc (a b c : string) : (a +:+ b) +:+ c = a +:+ (b +:+ c).
Proof. induction a as [|x a IH]; [reflexivity | now rewrite !append_cons, IH]. Qed.

Lemma prefix_append (p s : string) :
  String.prefix p s = true <-> exists post, s = p +:+ post.
Proof.
  revert s; induction p as [|c p IH]; intros s.
  - split; [intros _; now exists s | now destruct s].
  - destruct s as [|d s]; simpl.
    + split; [discriminate | intros [post H]; discriminate].
    + destruct (Ascii.ascii_dec c d) as [->|Hne].
      * rewrite IH. split; intros [post H]; exists post;
          [now rewrite H | rewrite append_cons in H; now injection H].
      * split; [discriminate | intros [post H]; rewrite append_cons in H; injection H; congruence].
Qed.

Lemma contains_occurs (sub s : string) :
  PyStr.contains sub s = true <-> occurs sub s.
Proof.
  unfold occurs; induction s as [|c s IH].
  - cbn [PyStr.contains]. rewrite orb_false_r, prefix_append. split.
    + intros [post H]; now exists "", post.
    + intros [pre [post H]]. destruct pre; [now exists post | discriminate].
  - cbn [PyStr.contains]. rewrite orb_true_iff, IH, prefix_append. split.
    + intros [[post H] | [pre [post H]]].
      * now exists "", post.
      * exists (String c pre), post. now rewrite append_cons, H.
    + intros [pre [post H]]. destruct pre as [|d pre].
      * left. now exists post.
      * right. exists pre, post. rewrite append_cons in H. now injection H.
Qed.

Lemma first_split_char (c : ascii) (s : string) :
  PyStr.first (PyStr.split (String c "") s) = before (Ascii.eqb c) s.
Proof.
  unfold PyStr.split. induction s as [|d s IH]; [reflexivity|].
  cbn [PyStr.split_from before String.prefix String.length Nat.sub].
  destruct (Ascii.ascii_dec c d) as [->|Hne].
  - rewrite Ascii.eqb_refl. destruct s; reflexivity.
  - apply Ascii.eqb_neq in Hne. rewrite Hne.
    revert IH. destruct (PyStr.split_from (String c "") s 0) as [|p ps]; simpl;
      now intros <-.
Qed.

Lemma split_from_nonempty (sep s : string) (k : nat) : PyStr.split_from sep s k <> [].
Proof.
  revert k; induction s as [|c s IH]; intros k; [discriminate|].
  cbn [PyStr.split_from].
  destruct k; [|apply IH].
  destruct (String.prefix sep (String c s)); [discriminate|].
  unfold PyStr.cons_head. destruct (PyStr.split_from sep s 0); discriminate.
Qed.

Lemma before_before (p q : ascii -> bool) (s : string) :
  before q (before p s) = before (fun c => p c || q c) s.
Proof.
  induction s as [|c s IH]; simpl; [reflexivity|].
  destruct (p c); simpl; [reflexivity|]. destruct (q c); [reflexivity | now rewrite IH].
Qed.

Lemma substring_all (s : string) : String.substring 0 (String.length s) s = s.
Proof. induction s as [|c s IH]; simpl; [reflexivity | now rewrite IH]. Qed.


Lemma forallb_str_app (p : ascii -> bool) (a b : string) :
  PyStr.forallb_str p (a +:+ b) = PyStr.forallb_str p a && PyStr.forallb_str p b.
Proof.
  induction a as [|c a IH]; [reflexivity|].
  rewrite append_cons. simpl. now rewrite IH, andb_assoc.
Qed.

Lemma forallb_replace_from (p : ascii -> bool) (old new s : string) (k : nat) :
  PyStr.forallb_str p new = true -> PyStr.forallb_str p s = true ->
  PyStr.forallb_str p (PyStr.replace_from old new s k) = true.
Proof.
  intros Hnew. revert k; induction s as [|c s IH]; intros k Hs; [reflexivity|].
  simpl in Hs. apply andb_true_iff in Hs as [Hc Hs].
  cbn [PyStr.replace_from]. destruct k; [|now apply IH].
  destruct (String.prefix old (String c s)).
  - rewrite forallb_str_app, Hnew. now apply IH.
  - simpl. rewrite Hc. now apply IH.
Qed.

Lemma forallb_lstrip (p q : ascii -> bool) (s : string) :
  PyStr.forallb_str p s = true -> PyStr.forallb_str p (PyStr.lstrip_with q s) = true.
Proof.
  induction s as [|c s IH]; intros Hs; [reflexivity|].
  simpl. destruct (q c); [|exact Hs].
  simpl in Hs. apply andb_true_iff in Hs as [_ Hs]. now apply IH.
Qed.

Lemma forallb_rstrip (p q : ascii -> bool) (s : string) :
  PyStr.forallb_str p s = true -> PyStr.forallb_str p (PyStr.rstrip_with q s) = true.
Proof.
  induction s as [|c s IH]; intros Hs; [reflexivity|].
  simpl in Hs. apply andb_true_iff in Hs as [Hc Hs]. specialize (IH Hs).
  simpl. destruct (PyStr.rstrip_with q s) as [|d r].
  - destruct (q c); simpl; [reflexivity | now rewrite Hc].
  - cbn [PyStr.forallb_str] in *. now rewrite Hc.
Qed.

Lemma forallb_re_sub_disallowed (s : string) :
  PyStr.forallb_str allowed_characters (re_sub_disallowed s) = true.
Proof.
  induction s as [|c s IH]; [reflexivity|].
  unfold re_sub_disallowed in *. simpl. rewrite IH, andb_true_r.
  destruct (allowed_characters c) eqn:Hc; [exact Hc | reflexivity].
Qed.

(** The sanitizer only lets allowlisted characters through. *)
Lemma sanitize_name_only_allowed (name : string) : only_allowed (sanitize_name name).
Proof.
  unfold only_allowed, sanitize_name, PyStr.strip_chars, PyStr.strip_with, PyStr.replace.
  apply forallb_rstrip, forallb_lstrip, forallb_replace_from;
    [reflexivity | apply forallb_re_sub_disallowed].
Qed.

Lemma lstrip_head (p : ascii -> bool) (s : string) (c : ascii) (r : string) :
  PyStr.lstrip_with p s = String c r -> p c = false.
Proof.
  induction s as [|d s IH]; simpl; [discriminate|].
  destruct (p d) eqn:Hd; [exact IH|]. intros H; injection H as -> _. exact Hd.
Qed.

Lemma rstrip_head (p : ascii -> bool) (s : string) (c : ascii) (r : string) :
  PyStr.rstrip_with p s = String c r -> exists r', s = String c r'.
Proof.
  destruct s as [|d s]; simpl; [discriminate|].
  destruct (PyStr.rstrip_with p s); [destruct (p d)|]; intros H;
    try discriminate; injection H as -> _; eauto.
Qed.

Lemma rstrip_last (p : ascii -> bool) (s r : string) (c : ascii) :
  PyStr.rstrip_with p s = r +:+ String c "" -> p c = false.
Proof.
  revert r; induction s as [|d s IH]; intros r; simpl.
  - destruct r; discriminate.
  - destruct (PyStr.rstrip_with p s) as [|e t] eqn:Ht.
    + destruct (p d) eqn:Hd; [destruct r; discriminate|].
      destruct r as [|x r]; rewrite ?append_cons, ?append_nil_l; intros H.
      * injection H as ->. exact Hd.
      * injection H as _ H. destruct r; discriminate.
    + destruct r as [|x r]; rewrite ?append_cons, ?append_nil_l; intros H.
      * discriminate.
      * injection H as _ H. now apply (IH r).
Qed.

(** The sanitizer's result has no separator at either end. *)
Lemma sanitize_name_trimmed (name : string) : trimmed (sanitize_name name).
Proof.
  unfold sanitize_name, PyStr.strip_chars, PyStr.strip_with.
  set (t := PyStr.replace "//" "/" (re_sub_disallowed name)).
  split; intros rest H.
  - rewrite append_cons, append_nil_l in H.
    destruct (rstrip_head _ _ _ _ H) as [r' Hr'].
    apply lstrip_head in Hr'. discriminate.
  - apply rstrip_last in H. discriminate.
Qed.

(** Replacing the disallowed characters and trimming never fail: the
    sanitizer is a total function, also on the empty string. *)
Lemma sanitize_name_empty : sanitize_name "" = "".
Proof. reflexivity. Qed.

Lemma lstrip_id (p : ascii -> bool) (s : string) :
  (forall c r, s = String c r -> p c = false) -> PyStr.lstrip_with p s = s.
Proof.
  destruct s as [|c s]; [reflexivity|]. intros H. simpl. now rewrite (H c s).
Qed.

Lemma rstrip_id (p : ascii -> bool) (s : string) :
  (forall r c, s = r +:+ String c "" -> p c = false) -> PyStr.rstrip_with p s = s.
Proof.
  induction s as [|d s IH]; [reflexivity|]. intros H. simpl.
  rewrite IH.
  - destruct s; [|reflexivity]. now rewrite (H "" d).
  - intros r c ->. apply (H (String d r) c). now rewrite append_cons.
Qed.

Lemma map_allowed_id (s : string) :
  only_allowed s -> re_sub_disallowed s = s.
Proof.
  unfold only_allowed, re_sub_disallowed.
  induction s as [|c s IH]; [reflexivity|]. simpl.
  intros H. apply andb_true_iff in H as [Hc Hs]. now rewrite Hc, IH.
Qed.

Lemma replace_absent (old new s : string) :
  PyStr.contains old s = false -> PyStr.replace old new s = s.
Proof.
  unfold PyStr.replace. induction s as [|c s IH]; [reflexivity|].
  cbn [PyStr.contains PyStr.replace_from]. intros H.
  apply orb_false_iff in H as [Hp Hs]. now rewrite Hp, IH.
Qed.

(** Where the result of the sanitizer has no doubled separator left, it is
    a fixed point of the sanitizer. *)
Lemma sanitize_name_fixed_point (name : string) :
  PyStr.contains "//" (sanitize_name name) = false ->
  sanitize_name (sanitize_name name) = sanitize_name name.
Proof.
  intros Hno. pose proof (sanitize_name_only_allowed name) as Hall.
  destruct (sanitize_name_trimmed name) as [Hl Hr].
  set (t := sanitize_name name) in *.
  unfold sanitize_name at 1. rewrite (map_allowed_id t Hall), (replace_absent _ _ _ Hno).
  unfold PyStr.strip_chars, PyStr.strip_with.
  rewrite lstrip_id.
  - apply rstrip_id. intros r c -> . simpl.
    destruct (Ascii.eqb c "/") eqn:Hc; [|reflexivity].
    apply Ascii.eqb_eq in Hc as ->. now destruct (Hr r).
  - intros c r ->. simpl.
    destruct (Ascii.eqb c "/") eqn:Hc; [|reflexivity].
    apply Ascii.eqb_eq in Hc as ->. now destruct (Hl r).
Qed.

Lemma re_sub_scheme_http (rest : string) : re_sub_scheme ("http://" +:+ rest) = rest.
Proof.
  unfold re_sub_scheme.
  replace (String.prefix "https://" ("http://" +:+ rest)) with false by reflexivity.
  replace (String.prefix "http://" ("http://" +:+ rest)) with true
    by (symmetry; apply prefix_append; eauto).
  rewrite !append_cons, append_nil_l. cbn [String.length String.substring Nat.sub].
  rewrite Nat.sub_0_r. apply substring_all.
Qed.

Lemma re_sub_scheme_https (rest : string) : re_sub_scheme ("https://" +:+ rest) = rest.
Proof.
  unfold re_sub_scheme.
  replace (String.prefix "https://" ("https://" +:+ rest)) with true
    by (symmetry; apply prefix_append; eauto).
  rewrite !append_cons, append_nil_l. cbn [String.length String.substring Nat.sub].
  rewrite Nat.sub_0_r. apply substring_all.
Qed.

Lemma clean_url_unfold (url : string) :
  clean_url url = sanitize_name (truncate_at_marker (re_sub_scheme url)).
Proof.
  unfold clean_url, truncate_at_marker.
  now rewrite !first_split_char, before_before.
Qed.


Lemma before_split (stop : ascii -> bool) (s : string) :
  exists tail, s = before stop s +:+ tail /\
    PyStr.forallb_str (fun c => negb (stop c)) (before stop s) = true /\
    (tail = "" \/ exists c r, tail = String c r /\ stop c = true).
Proof.
  induction s as [|c s (tail & Hs & Hb & Ht)].
  - exists "". repeat split; auto.
  - simpl. destruct (stop c) eqn:Hc.
    + exists (String c s). repeat split; eauto.
    + exists tail. rewrite append_cons, <- Hs. simpl. rewrite Hc. repeat split; auto.
Qed.

End StringFacts.

(** ** The sanitizer and the URL cleaner *)

(** C2 (defect in the code). A run of three separators is only shortened to
    two by the single [replace] pass, so a second application still changes
    the name: the sanitizer is not idempotent on "a///b". *)
Theorem sanitize_name_not_idempotent :
  sanitize_name "a///b" = "a//b" /\
  sanitize_name (sanitize_name "a///b") = "a/b" /\
  sanitize_name (sanitize_name "a///b") <> sanitize_name "a///b".
Proof. repeat split. discriminate. Qed.

(** C3 (defect in the code). The result of the sanitizer can still hold two
    consecutive separators: a run of three is not collapsed to one. *)
Theorem sanitize_name_leaves_separator_run :
  PyStr.contains "//" (sanitize_name "a///b") = true /\
  PyStr.contains "//" (sanitize_name "dir////file") = true.
Proof. split; reflexivity. Qed.

(** C6. URL cleaning removes one leading "http://" or "https://", cuts the
    string at the first "#" or "?", and sanitizes what is left; the sample
    URL "https://example.com/a?x=1#frag" becomes "example.com/a". *)
Theorem clean_url_strips_once_and_truncates :
  (forall rest, clean_url ("http://" +:+ rest) = sanitize_name (truncate_at_marker rest)) /\
  (forall rest, clean_url ("https://" +:+ rest) = sanitize_name (truncate_at_marker rest)) /\
  (forall url, String.prefix "http://" url = false -> String.prefix "https://" url = false ->
     clean_url url = sanitize_name (truncate_at_marker url)) /\
  clean_url "https://example.com/a?x=1#frag" = "example.com/a" /\
  clean_url "http://https://example.com" = sanitize_name "https://example.com".
Proof.
  repeat split; try reflexivity.
  - intros rest. now rewrite clean_url_unfold, re_sub_scheme_http.
  - intros rest. now rewrite clean_url_unfold, re_sub_scheme_https.
  - intros url H1 H2. rewrite clean_url_unfold. unfold re_sub_scheme. now rewrite H1, H2.
Qed.

Lemma clean_url_strips_once_and_truncates_witness :
  clean_url "example.com/a?x=1" = sanitize_name (truncate_at_marker "example.com/a?x=1").
Proof.
  apply (proj1 (proj2 (proj2 clean_url_strips_once_and_truncates))); reflexivity.
Defined.

(** ** The output parser *)

Section Parser.

Variable E : Env.

Lemma is_web_line_spec (line : string) :
  is_web_line line = true <-> web_service_line line.
Proof.
  unfold is_web_line, web_service_line.
  now rewrite andb_true_iff, orb_true_iff, !contains_occurs.
Qed.

Lemma port_token_spec (line : string) :
  port_token line = PyStr.strip (leading_token line).
Proof. unfold port_token, leading_token. now rewrite first_split_char. Qed.

Lemma scan_lines_ok (lines : list string) (acc : gset Z) :
  Forall token_ok lines ->
  exists s, scan_lines lines acc = Ok s /\
    forall n, n ∈ s <-> n ∈ acc \/ exists line, line ∈ lines /\ line_port line n.
Proof.
  intros H; revert acc; induction H as [|line lines Hline _ IH]; intros acc.
  - exists acc. split; [reflexivity|]. intros n. split; [auto|].
    intros [?|(line & Hin & _)]; [assumption | inversion Hin].
  - cbn [scan_lines]. destruct (is_web_line line) eqn:Hweb.
    + apply is_web_line_spec in Hweb. destruct (Hline Hweb) as [p Hp].
      rewrite port_token_spec, Hp.
      destruct (IH ({[p]} ∪ acc)) as (s & -> & Hs). exists s. split; [reflexivity|].
      intros n. rewrite Hs, elem_of_union, elem_of_singleton. split.
      * intros [[->|?]|(l & Hin & Hl)]; [right|left|right]; auto.
        -- exists line. split; [left | split; assumption].
        -- exists l. split; [now right | assumption].
      * intros [?|(l & Hin & Hl)]; [now left; right|].
        apply elem_of_cons in Hin as [->|Hin].
        -- left; left. destruct Hl as [_ Hl]. congruence.
        -- right. eauto.
    + destruct (IH acc) as (s & -> & Hs). exists s. split; [reflexivity|].
      intros n. rewrite Hs. split.
      * intros [?|(l & Hin & Hl)]; [now left|]. right. exists l. split; [now right|assumption].
      * intros [?|(l & Hin & Hl)]; [now left|].
        apply elem_of_cons in Hin as [->|Hin]; [|right; eauto].
        destruct Hl as [Hl _]. apply is_web_line_spec in Hl. congruence.
Qed.

Lemma scan_lines_raise (lines : list string) (acc : gset Z) :
  Exists (fun line => ~ token_ok line) lines ->
  scan_lines lines acc = Raise ValueError.
Proof.
  intros H; revert acc; induction H as [line lines Hline|line lines _ IH]; intros acc.
  - cbn [scan_lines]. destruct (is_web_line line) eqn:Hweb.
    + rewrite port_token_spec.
      destruct (PyStr.int (PyStr.strip (leading_token line))) eqn:Hp; [|reflexivity].
      exfalso. apply Hline. intros _. rewrite Hp. eauto.
    + exfalso. apply Hline. intros Hw. apply is_web_line_spec in Hw. congruence.
  - cbn [scan_lines]. destruct (is_web_line line); [|apply IH].
    destruct (PyStr.int (port_token line)); [apply IH | reflexivity].
Qed.

Lemma scan_lines_only_ValueError (lines : list string) (acc : gset Z) (e : exn) :
  scan_lines lines acc = Raise e -> e = ValueError.
Proof.
  revert acc; induction lines as [|line lines IH]; intros acc; cbn [scan_lines]; [discriminate|].
  destruct (is_web_line line); [|apply IH].
  destruct (PyStr.int (port_token line)); [apply IH | congruence].
Qed.

Lemma parse_nmap_output_present (f text : string) (inp : list string) (w : World) :
  files w !! f = Some text ->
  parse_nmap_output E f inp w =
    match scan_lines (readlines text) ∅ with
    | Ok s => (Ok (set_order E s), (inp, w))
    | Raise e => (Raise e, (inp, w))
    end.
Proof.
  intros Hf. unfold parse_nmap_output, bind, try_except, open_r, list_of_set, ret.
  rewrite Hf. destruct (scan_lines (readlines text) ∅) as [s|e] eqn:Hs; [reflexivity|].
  now rewrite (scan_lines_only_ValueError _ _ _ Hs).
Qed.

Lemma set_order_empty : set_order E ∅ = [].
Proof.
  apply Permutation_nil_r. rewrite (set_order_perm E ∅). now rewrite elements_empty.
Qed.

Lemma set_order_singleton (n : Z) (s : gset Z) : s = {[n]} -> set_order E s = [n].
Proof.
  intros ->. apply Permutation_singleton_r.
  rewrite (set_order_perm E _). now rewrite elements_singleton.
Qed.

Lemma parse_nmap_output_missing (f : string) (inp : list string) (w : World) :
  files w !! f = None ->
  parse_nmap_output E f inp w =
    (Ok [], (inp, log (Print ("Error: Nmap output file " +:+ f +:+ " not found.")) w)).
Proof.
  intros Hf. unfold parse_nmap_output, bind, try_except, open_r, list_of_set, ret, print.
  rewrite Hf. cbn. now rewrite set_order_empty.
Qed.

End Parser.

(** ** Result files line by line *)

Section Lines.

Lemma contains_cons (sub : string) (c : ascii) (s : string) :
  PyStr.contains sub (String c s) =
    String.prefix sub (String c s) || PyStr.contains sub s.
Proof. reflexivity. Qed.

Lemma readlines_cons (c : ascii) (s : string) :
  c <> "010"%char -> c <> "013"%char ->
  readlines (String c s) = PyStr.cons_head c (readlines s).
Proof.
  intros Hlf Hcr. destruct c as [[] [] [] [] [] [] [] []]; try reflexivity; congruence.
Qed.

Lemma one_line_cons (c : ascii) (line : string) :
  one_line (String c line) <->
  c <> "010"%char /\ c <> "013"%char /\ one_line line.
Proof.
  unfold one_line. cbn [PyStr.forallb_str].
  rewrite andb_true_iff, negb_true_iff, orb_false_iff.
  split.
  - intros [[H1 H2] H3]. apply Ascii.eqb_neq in H1, H2. auto.
  - intros (H1 & H2 & H3). apply Ascii.eqb_neq in H1, H2. auto.
Qed.

Lemma readlines_line (line rest : string) :
  one_line line ->
  readlines (line +:+ nl +:+ rest) = (line +:+ nl) :: readlines rest.
Proof.
  induction line as [|c line IH]; intros Hl; [reflexivity|].
  apply one_line_cons in Hl as (Hlf & Hcr & Hl).
  rewrite !append_cons, (readlines_cons _ _ Hlf Hcr), (IH Hl). reflexivity.
Qed.

Lemma readlines_text_of_lines (lines : list string) :
  Forall one_line lines ->
  readlines (text_of_lines lines) = map (fun line => line +:+ nl) lines.
Proof.
  induction 1 as [|line lines Hl _ IH]; [reflexivity|].
  cbn [text_of_lines map]. now rewrite (readlines_line _ _ Hl), IH.
Qed.

Lemma prefix_nl (sub s : string) :
  PyStr.forallb_str (fun c => negb (Ascii.eqb c "010")) sub = true ->
  String.prefix sub (s +:+ nl) = String.prefix sub s.
Proof.
  revert s; induction sub as [|a sub IH]; intros s Hsub.
  - destruct s; reflexivity.
  - cbn [PyStr.forallb_str] in Hsub. apply andb_true_iff in Hsub as [Ha Hsub].
    apply negb_true_iff, Ascii.eqb_neq in Ha.
    destruct s as [|b s].
    + rewrite append_nil_l. unfold nl. cbn [String.prefix].
      destruct (Ascii.ascii_dec a "010"); [contradiction | reflexivity].
    + rewrite append_cons. cbn [String.prefix].
      destruct (Ascii.ascii_dec a b); [now apply IH | reflexivity].
Qed.

Lemma contains_nl (sub s : string) :
  PyStr.forallb_str (fun c => negb (Ascii.eqb c "010")) sub = true ->
  sub <> "" ->
  PyStr.contains sub (s +:+ nl) = PyStr.contains sub s.
Proof.
  intros Hsub Hne. induction s as [|c s IH].
  - destruct sub as [|a sub]; [contradiction|].
    cbn [PyStr.forallb_str] in Hsub. apply andb_true_iff in Hsub as [Ha _].
    apply negb_true_iff, Ascii.eqb_neq in Ha.
    rewrite append_nil_l. unfold nl. cbn [PyStr.contains String.prefix].
    destruct (Ascii.ascii_dec a "010"); [contradiction | reflexivity].
  - rewrite append_cons, !contains_cons, IH, <- append_cons.
    now rewrite (prefix_nl sub (String c s) Hsub).
Qed.

Lemma is_web_line_nl (line : string) :
  is_web_line (line +:+ nl) = is_web_line line.
Proof.
  unfold is_web_line. now rewrite !contains_nl by (reflexivity || discriminate).
Qed.

Lemma before_nl (stop : ascii -> bool) (line : string) :
  stop "010"%char = false ->
  before stop (line +:+ nl) = before stop line \/
  before stop (line +:+ nl) = before stop line +:+ nl.
Proof.
  intros Hs. induction line as [|c line IH].
  - right. rewrite !append_nil_l. unfold nl. cbn [before]. now rewrite Hs.
  - rewrite append_cons. cbn [before]. destruct (stop c); [now left|].
    destruct IH as [-> | ->]; [now left | right; now rewrite append_cons].
Qed.

Lemma rstrip_all (p : ascii -> bool) (t : string) :
  PyStr.forallb_str p t = true -> PyStr.rstrip_with p t = "".
Proof.
  induction t as [|c t IH]; [reflexivity|]. cbn [PyStr.forallb_str PyStr.rstrip_with].
  intros H. apply andb_true_iff in H as [Hc Ht]. now rewrite (IH Ht), Hc.
Qed.

Lemma rstrip_app (p : ascii -> bool) (s t : string) :
  PyStr.forallb_str p t = true ->
  PyStr.rstrip_with p (s +:+ t) = PyStr.rstrip_with p s.
Proof.
  intros Ht. induction s as [|c s IH]; [now apply rstrip_all|].
  rewrite append_cons. cbn [PyStr.rstrip_with]. now rewrite IH.
Qed.

Lemma strip_app (p : ascii -> bool) (s t : string) :
  PyStr.forallb_str p t = true ->
  PyStr.strip_with p (s +:+ t) = PyStr.strip_with p s.
Proof.
  intros Ht. unfold PyStr.strip_with. induction s as [|c s IH].
  - rewrite append_nil_l. cbn [PyStr.lstrip_with].
    assert (PyStr.lstrip_with p t = "") as ->; [|reflexivity].
    clear -Ht. induction t as [|c t IH]; [reflexivity|].
    cbn [PyStr.forallb_str PyStr.lstrip_with] in *.
    apply andb_true_iff in Ht as [Hc Ht]. now rewrite Hc, IH.
  - rewrite append_cons. cbn [PyStr.lstrip_with]. destruct (p c); [exact IH|].
    rewrite <- append_cons. now apply rstrip_app.
Qed.

Lemma port_token_nl (line : string) :
  PyStr.strip (leading_token (line +:+ nl)) = PyStr.strip (leading_token line).
Proof.
  unfold leading_token.
  destruct (before_nl (Ascii.eqb "/") line eq_refl) as [-> | ->]; [reflexivity|].
  now apply strip_app.
Qed.

Lemma web_service_line_nl (line : string) :
  web_service_line (line +:+ nl) <-> web_service_line line.
Proof. now rewrite <- !is_web_line_spec, is_web_line_nl. Qed.

Lemma token_ok_nl (line : string) : token_ok (line +:+ nl) <-> token_ok line.
Proof. unfold token_ok. now rewrite web_service_line_nl, port_token_nl. Qed.

Lemma line_port_nl (line : string) (n : Z) :
  line_port (line +:+ nl) n <-> line_port line n.
Proof. unfold line_port. now rewrite web_service_line_nl, port_token_nl. Qed.

Lemma parse_text_of_lines (E : Env) (f : string) (lines : list string)
    (inp : list string) (w : World) :
  Forall one_line lines ->
  files w !! f = Some (text_of_lines lines) ->
  (Forall token_ok lines ->
   exists ports,
     parse_nmap_output E f inp w = (Ok ports, (inp, w)) /\ NoDup ports /\
     forall n, n ∈ ports <-> exists line, line ∈ lines /\ line_port line n) /\
  (Exists (fun line => ~ token_ok line) lines ->
   parse_nmap_output E f inp w = (Raise ValueError, (inp, w))).
Proof.
  intros Hl Hf. rewrite (parse_nmap_output_present E f _ inp w Hf).
  rewrite (readlines_text_of_lines lines Hl). split.
  - intros Hok.
    destruct (scan_lines_ok (map (fun line => line +:+ nl) lines) ∅) as (s & -> & Hs).
    { apply Forall_map. eapply Forall_impl; [exact Hok|]. intros line. apply token_ok_nl. }
    exists (set_order E s). split; [reflexivity|]. split.
    + rewrite (set_order_perm E s). apply NoDup_elements.
    + intros n. rewrite (set_order_perm E s), elem_of_elements, Hs. split.
      * intros [H|(line' & Hin & Hp)]; [now apply not_elem_of_empty in H|].
        apply list_elem_of_In, in_map_iff in Hin as (line & <- & Hin).
        exists line. split; [now apply list_elem_of_In | now apply line_port_nl].
      * intros (line & Hin & Hp). right. exists (line +:+ nl).
        split; [|now apply line_port_nl].
        apply list_elem_of_In, in_map_iff. exists line.
        split; [reflexivity | now apply list_elem_of_In].
  - intros Hbad. rewrite scan_lines_raise; [reflexivity|].
    apply Exists_exists in Hbad as (line & Hin & Hbad).
    apply Exists_exists. exists (line +:+ nl). split.
    + apply list_elem_of_In, in_map_iff. exists line.
      split; [reflexivity | now apply list_elem_of_In].
    + now rewrite token_ok_nl.
Qed.

End Lines.

(** C1, the statement as given fails: in this result file the first line
    is a candidate with the port 443 in front, yet no port comes back,
    because the second line is a candidate too and its token is no
    integer. *)
Lemma parse_nmap_output_loses_port_lines :
  is_web_line ("443/tcp open https" +:+ nl) = true /\
  is_web_line ("|_http-open-proxy: Proxy might be redirecting requests" +:+ nl) = true /\
  fst (parse_nmap_output Sample.env "scan.txt" []
         (Sample.world_with "scan.txt"
            (text_of_lines [ "443/tcp open https";
                             "|_http-open-proxy: Proxy might be redirecting requests" ])))
    = Raise ValueError.
Proof. repeat split; vm_compute; reflexivity. Qed.

(** C1, amended. A line is a candidate exactly when it contains "open" and
    also "http" or "https".  For a result file in which the token before
    the first "/" of every candidate line is an integer, the parser
    returns, each once, exactly the integers of the candidate lines; when
    the token of some candidate line is no integer it raises [ValueError]
    and returns no port.  This is stated for any text through the lines
    the parser reads, and again for a file given as its list of lines.  A
    file with the line "80/tcp open http" gives the port 80, the line
    "22/tcp open ssh" gives no port, "443/tcp open https" gives 443. *)
Theorem parse_nmap_output_web_ports (E : Env) :
  (forall line, is_web_line line = true <-> web_service_line line) /\
  (forall f text inp w,
     files w !! f = Some text ->
     (Forall token_ok (readlines text) ->
      exists ports,
        parse_nmap_output E f inp w = (Ok ports, (inp, w)) /\ NoDup ports /\
        forall n, n ∈ ports <-> exists line, line ∈ readlines text /\ line_port line n) /\
     (Exists (fun line => ~ token_ok line) (readlines text) ->
      parse_nmap_output E f inp w = (Raise ValueError, (inp, w)))) /\
  (forall f lines inp w,
     Forall one_line lines ->
     files w !! f = Some (text_of_lines lines) ->
     (Forall token_ok lines ->
      exists ports,
        parse_nmap_output E f inp w = (Ok ports, (inp, w)) /\ NoDup ports /\
        forall n, n ∈ ports <-> exists line, line ∈ lines /\ line_port line n) /\
     (Exists (fun line => ~ token_ok line) lines ->
      parse_nmap_output E f inp w = (Raise ValueError, (inp, w)))) /\
  (forall f inp w, files w !! f = Some ("80/tcp open http" +:+ nl) ->
     parse_nmap_output E f inp w = (Ok [80], (inp, w))) /\
  (forall f inp w, files w !! f = Some ("22/tcp open ssh" +:+ nl) ->
     parse_nmap_output E f inp w = (Ok [], (inp, w))) /\
  (forall f inp w, files w !! f = Some ("443/tcp open https" +:+ nl) ->
     parse_nmap_output E f inp w = (Ok [443], (inp, w))) /\
  (forall f inp w,
     files w !! f = Some (text_of_lines [ "PORT     STATE SERVICE";
                                          "21/tcp   open  ftp";
                                          "8080/tcp open  http-proxy";
                                          "8443/tcp open  https-alt" ]) ->
     exists ports,
       parse_nmap_output E f inp w = (Ok ports, (inp, w)) /\ ports ≡ₚ [8080; 8443]).
Proof.
  split; [exact is_web_line_spec|]. split; [|split; [|repeat split]].
  - intros f text inp w Hf.
    rewrite (parse_nmap_output_present E f text inp w Hf). split.
    + intros Hok. destruct (scan_lines_ok (readlines text) ∅ Hok) as (s & -> & Hs).
      exists (set_order E s). split; [reflexivity|]. split.
      * rewrite (set_order_perm E s). apply NoDup_elements.
      * intros n. rewrite (set_order_perm E s), elem_of_elements, Hs.
        split; [intros [H|H]; [set_solver | exact H] | auto].
    + intros Hbad. now rewrite (scan_lines_raise _ ∅ Hbad).
  - intros f lines inp w. apply parse_text_of_lines.
  - intros f inp w Hf. rewrite (parse_nmap_output_present E f _ inp w Hf).
    change (scan_lines _ ∅) with (Ok (A := gset Z) ({[80]} ∪ ∅)). cbv beta iota.
    rewrite (set_order_singleton E 80); [reflexivity | set_solver].
  - intros f inp w Hf. rewrite (parse_nmap_output_present E f _ inp w Hf).
    change (scan_lines _ ∅) with (Ok (A := gset Z) ∅). cbv beta iota.
    now rewrite set_order_empty.
  - intros f inp w Hf. rewrite (parse_nmap_output_present E f _ inp w Hf).
    change (scan_lines _ ∅) with (Ok (A := gset Z) ({[443]} ∪ ∅)). cbv beta iota.
    rewrite (set_order_singleton E 443); [reflexivity | set_solver].
  - intros f inp w Hf. rewrite (parse_nmap_output_present E f _ inp w Hf).
    change (scan_lines _ ∅) with (Ok (A := gset Z) ({[8443]} ∪ ({[8080]} ∪ ∅))).
    cbv beta iota. eexists. split; [reflexivity|]. rewrite (set_order_perm E _).
    apply NoDup_Permutation; [apply NoDup_elements | |].
    + apply NoDup_cons. split; [|apply NoDup_singleton].
      rewrite list_elem_of_singleton. discriminate.
    + intros n. rewrite elem_of_elements, !elem_of_union, !elem_of_singleton,
        elem_of_cons, list_elem_of_singleton.
      pose proof (not_elem_of_empty (C := gset Z) n). tauto.
Qed.

Lemma parse_nmap_output_web_ports_witness :
  exists ports,
    parse_nmap_output Sample.env "scan.txt" []
      (Sample.world_with "scan.txt"
         (text_of_lines ["22/tcp open ssh"; "80/tcp open http"; "443/tcp open https"]))
      = (Ok ports,
         ([], Sample.world_with "scan.txt"
                (text_of_lines ["22/tcp open ssh"; "80/tcp open http"; "443/tcp open https"])))
    /\ NoDup ports /\
    forall n, n ∈ ports <->
      exists line, line ∈ ["22/tcp open ssh"; "80/tcp open http"; "443/tcp open https"]
                   /\ line_port line n.
Proof.
  apply (proj1 (proj2 (proj2 (parse_nmap_output_web_ports Sample.env)))
           "scan.txt" ["22/tcp open ssh"; "80/tcp open http"; "443/tcp open https"] []
           (Sample.world_with "scan.txt"
              (text_of_lines ["22/tcp open ssh"; "80/tcp open http"; "443/tcp open https"]))).
  - repeat constructor.
  - reflexivity.
  - repeat constructor; intros _; vm_compute; eauto.
Defined.

(** C4, the statement as given fails: a result file with a candidate line
    whose leading token is no integer makes the parser raise. *)
Lemma parse_nmap_output_malformed_raises :
  fst (parse_nmap_output Sample.env "scan.txt" []
         (Sample.world_with "scan.txt" Sample.malformed_text)) = Raise ValueError.
Proof. vm_compute. reflexivity. Qed.

(** C4, amended. A missing result file is reported on the console and
    gives the empty port list without raising.  For a file that is there,
    the parser raises [ValueError] when some candidate line has a leading
    token that is no integer, and returns normally otherwise. *)
Theorem parse_nmap_output_failures (E : Env) (f : string) (inp : list string) (w : World) :
  (files w !! f = None ->
   parse_nmap_output E f inp w =
     (Ok [], (inp, log (Print ("Error: Nmap output file " +:+ f +:+ " not found.")) w))) /\
  (forall text, files w !! f = Some text ->
     (Exists (fun line => ~ token_ok line) (readlines text) ->
      parse_nmap_output E f inp w = (Raise ValueError, (inp, w))) /\
     (Forall token_ok (readlines text) ->
      exists ports, parse_nmap_output E f inp w = (Ok ports, (inp, w)))).
Proof.
  split; [apply parse_nmap_output_missing|].
  intros text Hf. rewrite (parse_nmap_output_present E f text inp w Hf). split.
  - intros H. now rewrite (scan_lines_raise _ ∅ H).
  - intros H. destruct (scan_lines_ok _ ∅ H) as (s & -> & _). eauto.
Qed.

Lemma parse_nmap_output_failures_witness :
  parse_nmap_output Sample.env "gone.txt" [] Sample.world0 =
    (Ok [], ([], log (Print ("Error: Nmap output file " +:+ "gone.txt" +:+ " not found."))
                  Sample.world0)).
Proof.
  apply (proj1 (parse_nmap_output_failures Sample.env "gone.txt" [] Sample.world0)).
  reflexivity.
Defined.

(** ** The runners *)

Section Runners.

Variable E : Env.

Lemma ticks_log (e : event) (w : World) : ticks (log e w) = ticks w.
Proof. reflexivity. Qed.

Lemma files_log (e : event) (w : World) : files (log e w) = files w.
Proof. reflexivity. Qed.

Lemma trace_log_app (e : event) (w : World) : trace (log e w) = (trace w ++ [e])%list.
Proof. reflexivity. Qed.

Lemma launched_log (e : event) (w : World) :
  console_only e -> launched (log e w) = launched w.
Proof.
  intros He. unfold launched. rewrite trace_log_app, omap_app.
  destruct e; [| |destruct He]; cbn; apply app_nil_r.
Qed.

(** The guarded block of both runners, case by case. *)
Lemma save_block (output_file command done : string) (inp : list string) (w : World) :
  try_except
    (bind (run_to_file E output_file command) (fun _ => print done))
    is_FileNotFoundError
    (fun e => print ("Error saving results: " +:+ exn_str e)) inp w =
  match open_w E output_file with
  | Some e =>
      if is_FileNotFoundError e
      then (Ok tt, (inp, log (Print ("Error saving results: " +:+ exn_str e)) w))
      else (Raise e, (inp, w))
  | None =>
      let w1 := log (Exec (PyStr.split_ws command) output_file)
                    (write_file output_file "" w) in
      match run_process E (PyStr.split_ws command) with
      | Ran output => (Ok tt, (inp, log (Print done) (write_file output_file output w1)))
      | LaunchFailed e =>
          if is_FileNotFoundError e
          then (Ok tt, (inp, log (Print ("Error saving results: " +:+ exn_str e)) w1))
          else (Raise e, (inp, w1))
      end
  end.
Proof.
  unfold try_except, bind, run_to_file, print.
  destruct (open_w E output_file) as [e|].
  - destruct (is_FileNotFoundError e); reflexivity.
  - cbv zeta. destruct (run_process E (PyStr.split_ws command)) as [output|e]; [reflexivity|].
    destruct (is_FileNotFoundError e); reflexivity.
Qed.

Lemma run_nmap_scan_unfold (ip_address output_dir : string) (nmap_options : list string)
    (inp : list string) (w : World) :
  run_nmap_scan E ip_address output_dir nmap_options inp w =
  let output_file :=
    path_join output_dir (nmap_output_name (clean_url ip_address) (clock E (ticks w))) in
  let command := nmap_command (PyStr.join " " nmap_options) ip_address in
  let w0 := log (Print (nl +:+ "Running the Nmap scan: " +:+ command)) (tick w) in
  match
    try_except
      (bind (run_to_file E output_file command)
         (fun _ => print (nl +:+ "Nmap scan completed. Results saved to: " +:+ output_file)))
      is_FileNotFoundError
      (fun e => print ("Error saving results: " +:+ exn_str e)) inp w0
  with
  | (Ok _, s) => (Ok output_file, s)
  | (Raise e, s) => (Raise e, s)
  end.
Proof.
  unfold run_nmap_scan, now. unfold bind at 1 2 3. cbn [print].
  cbv zeta. destruct (try_except _ _ _ _ _) as [[[]|e] [inp' w']]; reflexivity.
Qed.

Lemma nmap_options_loop_done (inp : list string) (nmap_options : list string) (w : World) :
  says_done inp ->
  exists opts inp' w',
    nmap_options_loop inp nmap_options w = (Ok opts, (inp', w')) /\
    ticks w' = ticks w /\ files w' = files w /\ launched w' = launched w.
Proof.
  intros (l & Hin & Hl). revert nmap_options w.
  induction inp as [|line inp IH]; intros nmap_options w; [inversion Hin|].
  cbn [nmap_options_loop]. destruct (String.eqb (PyStr.strip line) "done") eqn:Hd.
  - destruct nmap_options; eexists _, _, _; (split; [reflexivity|]);
      rewrite ?launched_log by exact I; auto.
  - assert (Hin' : l ∈ inp).
    { apply elem_of_cons in Hin as [->|?]; [|assumption].
      rewrite Hl in Hd. discriminate. }
    destruct (option_mapping !! PyStr.strip line) as [flag|];
      [destruct (negb (str_in flag nmap_options))|];
      (edestruct (IH Hin') as (opts & inp' & w' & -> & Ht & Hf & Hl');
       eexists _, _, _; (split; [reflexivity|]);
       rewrite Hl', !launched_log by exact I; auto).
Qed.

Lemma run_nmap_unfold (ip_address output_dir : string) (inp : list string) (w : World) :
  says_done inp ->
  exists opts inp' w',
    run_nmap E ip_address output_dir inp w =
      run_nmap_scan E ip_address output_dir opts inp' w' /\
    ticks w' = ticks w /\ files w' = files w /\ launched w' = launched w.
Proof.
  intros Hd. unfold run_nmap. unfold bind at 1 2 3 4 5 6 7 8 9 10 11 12 13 14. cbn [print].
  match goal with
  | |- context [nmap_options_loop inp [] ?W] =>
      destruct (nmap_options_loop_done inp [] W Hd) as (opts & inp' & w' & -> & Ht & Hf & Hl)
  end.
  exists opts, inp', w'. split; [reflexivity|]. split; [assumption|]. split; [assumption|].
  rewrite Hl, !launched_log by exact I. reflexivity.
Qed.

Lemma gobuster_port_unfold (ip_address : string) (port : pyval) (output_dir line : string)
    (rest : list string) (w : World) :
  gobuster_port E ip_address port output_dir (line :: rest) w =
  let output_file :=
    path_join output_dir (gobuster_output_name port (clock E (ticks w))) in
  let command := gobuster_command (gobuster_url ip_address port) (PyStr.strip line) in
  let w0 :=
    log (Print (nl +:+ "Running Gobuster scan on port " +:+ py_str port +:+ ": " +:+ command))
      (tick (log (Prompt ("Enter the path to your wordlist for port " +:+ py_str port +:+ ": ")) w)) in
  try_except
    (bind (run_to_file E output_file command)
       (fun _ => print ("Gobuster scan for port " +:+ py_str port
                        +:+ " completed. Results saved to: " +:+ output_file)))
    is_FileNotFoundError
    (fun e => print ("Error saving results: " +:+ exn_str e)) rest w0.
Proof. reflexivity. Qed.

Lemma gobuster_port_eof (ip_address : string) (port : pyval) (output_dir : string) (w : World) :
  gobuster_port E ip_address port output_dir [] w =
    (Raise EOFError,
     ([], log (Prompt ("Enter the path to your wordlist for port " +:+ py_str port +:+ ": ")) w)).
Proof. reflexivity. Qed.

Lemma says_done_here (rest : list string) : says_done ("done" :: rest).
Proof. exists "done". split; [left | reflexivity]. Qed.

End Runners.

(** C5, the statement as given fails: with an output directory that cannot
    be written, the open in [run_nmap] raises [PermissionError], nothing
    catches it, and the program ends with that exception. *)
Lemma main_crashes_on_permission_error :
  fst (main Sample.env_denied ["1"; "10.0.0.5"; "."; "done"] Sample.world0) =
    Raise (PermissionError
      "[Errno 13] Permission denied: '/home/user/nmap_scan_10.0.0.5_2024_01_01_00_00_00.txt'").
Proof. vm_compute. reflexivity. Qed.

(** C5, amended. When the output file cannot be opened because its path
    does not exist ([FileNotFoundError]), each runner prints "Error saving
    results" and returns normally, without launching the tool and without
    retrying; every other exception raised by the open, a permissions
    failure for one, leaves the runner uncaught. *)
Theorem runners_catch_only_file_not_found (E : Env) (ip_address output_dir : string)
    (inp : list string) (w : World) :
  says_done inp ->
  let output_file :=
    path_join output_dir (nmap_output_name (clean_url ip_address) (clock E (ticks w))) in
  (forall msg, open_w E output_file = Some (FileNotFoundError msg) ->
     exists inp' w',
       run_nmap E ip_address output_dir inp w = (Ok output_file, (inp', w')) /\
       last (trace w') = Some (Print ("Error saving results: " +:+ msg)) /\
       files w' = files w /\ launched w' = launched w) /\
  (forall e, open_w E output_file = Some e -> is_FileNotFoundError e = false ->
     exists s, run_nmap E ip_address output_dir inp w = (Raise e, s)) /\
  (forall port line rest w0,
     let gobuster_file :=
       path_join output_dir (gobuster_output_name port (clock E (ticks w0))) in
     (forall msg, open_w E gobuster_file = Some (FileNotFoundError msg) ->
        exists w',
          gobuster_port E ip_address port output_dir (line :: rest) w0 = (Ok tt, (rest, w')) /\
          last (trace w') = Some (Print ("Error saving results: " +:+ msg)) /\
          files w' = files w0 /\ launched w' = launched w0) /\
     (forall e, open_w E gobuster_file = Some e -> is_FileNotFoundError e = false ->
        exists s, gobuster_port E ip_address port output_dir (line :: rest) w0 = (Raise e, s))).
Proof.
  intros Hd output_file.
  destruct (run_nmap_unfold E ip_address output_dir inp w Hd)
    as (opts & inp' & w1 & Hrun & Ht & Hf & Hl).
  subst output_file.
  rewrite Hrun, run_nmap_scan_unfold. cbv zeta. rewrite save_block, Ht.
  split; [|split].
  - intros msg ->. cbn [is_FileNotFoundError exn_str]. eexists _, _. split; [reflexivity|].
    split; [apply last_snoc|]. split; [exact Hf|].
    rewrite !launched_log by exact I. exact Hl.
  - intros e -> ->. eauto.
  - intros port line rest w0.
    rewrite gobuster_port_unfold. cbv zeta. rewrite save_block. split.
    + intros msg ->. cbn [is_FileNotFoundError exn_str]. eexists. split; [reflexivity|].
      split; [apply last_snoc|]. split; [reflexivity|].
      rewrite !launched_log by exact I. change (launched (tick ?x)) with (launched x).
      now rewrite launched_log by exact I.
    + intros e -> ->. eauto.
Qed.

Lemma runners_catch_only_file_not_found_witness :
  exists inp' w',
    run_nmap Sample.env_no_dir "10.0.0.5" "scans" ["done"] Sample.world0 =
      (Ok "scans/nmap_scan_10.0.0.5_2024_01_01_00_00_00.txt", (inp', w')).
Proof.
  destruct (proj1 (runners_catch_only_file_not_found Sample.env_no_dir "10.0.0.5" "scans"
                     ["done"] Sample.world0 (says_done_here []))
              "[Errno 2] No such file or directory: 'scans/nmap_scan_10.0.0.5_2024_01_01_00_00_00.txt'"
              eq_refl)
    as (inp' & w' & H & _).
  exists inp', w'. exact H.
Defined.

(** C10, the statement as given fails: when the open raises something
    other than [FileNotFoundError] the runner returns no path at all. *)
Lemma run_nmap_does_not_always_return :
  fst (run_nmap Sample.env_denied "10.0.0.5" "/home/user" ["done"] Sample.world0) =
    Raise (PermissionError
      "[Errno 13] Permission denied: '/home/user/nmap_scan_10.0.0.5_2024_01_01_00_00_00.txt'").
Proof. vm_compute. reflexivity. Qed.

(** C10, amended. The runner returns the path it constructed also when the
    open fails with [FileNotFoundError] or the tool cannot be launched
    ([FileNotFoundError] from the launch); parsing that file, which is
    missing in the first case and empty in the second, gives the empty port
    list, the same as after a scan that ran and reported no web service
    line.  When the open or the launch raises any other exception, the
    runner returns nothing: that exception leaves [run_nmap]. *)
Theorem failed_scan_looks_like_empty_scan (E : Env) (ip_address output_dir : string)
    (inp : list string) (w : World) :
  says_done inp ->
  let output_file :=
    path_join output_dir (nmap_output_name (clean_url ip_address) (clock E (ticks w))) in
  let same_outcome :=
    exists inp' w1 w2,
      run_nmap E ip_address output_dir inp w = (Ok output_file, (inp', w1)) /\
      parse_nmap_output E output_file inp' w1 = (Ok [], (inp', w2)) in
  (forall msg, open_w E output_file = Some (FileNotFoundError msg) ->
     files w !! output_file = None -> same_outcome) /\
  (forall msg, open_w E output_file = None ->
     (forall argv, run_process E argv = LaunchFailed (FileNotFoundError msg)) ->
     same_outcome) /\
  (open_w E output_file = None ->
   (forall argv, exists output, run_process E argv = Ran output /\ no_web_line output) ->
   same_outcome) /\
  (forall e, open_w E output_file = Some e -> is_FileNotFoundError e = false ->
     exists inp' w', run_nmap E ip_address output_dir inp w = (Raise e, (inp', w')) /\
                     files w' = files w /\ launched w' = launched w) /\
  (forall e, open_w E output_file = None ->
     (forall argv, run_process E argv = LaunchFailed e) ->
     is_FileNotFoundError e = false ->
     exists inp' w', run_nmap E ip_address output_dir inp w = (Raise e, (inp', w')) /\
                     files w' !! output_file = Some "").
Proof.
  intros Hd output_file same_outcome. subst same_outcome output_file.
  destruct (run_nmap_unfold E ip_address output_dir inp w Hd)
    as (opts & inp' & w1 & Hrun & Ht & Hf & Hl).
  rewrite Hrun, run_nmap_scan_unfold. cbv zeta. rewrite save_block, Ht.
  split; [|split; [|split; [|split]]].
  - intros msg -> Hnone. cbn [is_FileNotFoundError]. eexists _, _, _. split; [reflexivity|].
    apply parse_nmap_output_missing. cbn. now rewrite Hf.
  - intros msg -> Hlaunch. rewrite Hlaunch. cbn [is_FileNotFoundError].
    eexists _, _, _. split; [reflexivity|].
    erewrite parse_nmap_output_present; [|cbn; apply lookup_insert_eq].
    cbn. now rewrite set_order_empty.
  - intros -> Hlaunch.
    match goal with |- context [run_process E ?argv] =>
      destruct (Hlaunch argv) as (output & -> & Hno) end.
    eexists _, _, _. split; [reflexivity|].
    erewrite parse_nmap_output_present; [|cbn; apply lookup_insert_eq].
    destruct (scan_lines_ok (readlines output) ∅) as (s & -> & Hs).
    { eapply Forall_impl; [exact Hno|]. intros line Hn Hweb. now destruct Hn. }
    assert (s = ∅) as ->.
    { apply set_eq. intros n. rewrite Hs. split; [|set_solver].
      intros [H|(line & Hin & Hweb & _)]; [exact H|].
      unfold no_web_line in Hno. rewrite Forall_forall in Hno. now destruct (Hno line Hin). }
    now rewrite set_order_empty.
  - intros e -> He. rewrite He. eexists _, _. split; [reflexivity|]. split; [exact Hf|].
    rewrite launched_log by exact I. exact Hl.
  - intros e -> Hlaunch He. rewrite Hlaunch, He. eexists _, _. split; [reflexivity|].
    apply lookup_insert_eq.
Qed.

Lemma failed_scan_looks_like_empty_scan_witness :
  exists inp' w1 w2,
    run_nmap Sample.env_no_tool "10.0.0.5" "scans" ["done"] Sample.world0 =
      (Ok "scans/nmap_scan_10.0.0.5_2024_01_01_00_00_00.txt", (inp', w1)) /\
    parse_nmap_output Sample.env_no_tool "scans/nmap_scan_10.0.0.5_2024_01_01_00_00_00.txt"
      inp' w1 = (Ok [], (inp', w2)).
Proof.
  apply (proj1 (proj2 (failed_scan_looks_like_empty_scan Sample.env_no_tool "10.0.0.5" "scans"
                         ["done"] Sample.world0 (says_done_here [])))
           "[Errno 2] No such file or directory: 'nmap'");
    [reflexivity | intros argv; reflexivity].
Defined.

(** ** Content discovery, port after port *)

Section Gobuster.

Variable E : Env.
Hypothesis Hworks : works E.

Lemma gobuster_port_works (ip_address : string) (port : pyval) (output_dir line : string)
    (rest : list string) (w : World) :
  exists w',
    gobuster_port E ip_address port output_dir (line :: rest) w = (Ok tt, (rest, w')) /\
    trace w' = (trace w ++ scan_events output_dir (py_str port) (gobuster_url ip_address port)
                             line (clock E (ticks w)))%list /\
    ticks w' = S (ticks w).
Proof.
  destruct Hworks as [Hopen Hrun].
  rewrite gobuster_port_unfold. cbv zeta. rewrite save_block, Hopen. cbv zeta.
  match goal with |- context [run_process E ?argv] =>
    destruct (Hrun argv) as (output & ->) end.
  eexists. split; [reflexivity|]. split; [|reflexivity].
  cbn [trace log write_file tick]. unfold scan_events, gobuster_command, gobuster_output_name.
  now rewrite <- !app_assoc.
Qed.

Lemma run_gobuster_trace (ip_address : string) (web_ports : list pyval) (output_dir : string)
    (inp : list string) (w : World) :
  (length web_ports <= length inp)%nat ->
  exists w',
    run_gobuster E ip_address web_ports output_dir inp w
      = (Ok tt, (drop (length web_ports) inp, w')) /\
    trace w' =
      (trace w ++ scans_events E output_dir
                    (map (fun v => (py_str v, gobuster_url ip_address v)) web_ports)
                    inp (ticks w))%list.
Proof.
  revert inp w; induction web_ports as [|port ports IH]; intros inp w Hlen.
  - exists w. split; [reflexivity|]. cbn. now rewrite app_nil_r.
  - destruct inp as [|line rest]; [cbn in Hlen; lia|].
    cbn [run_gobuster]. unfold bind.
    destruct (gobuster_port_works ip_address port output_dir line rest w)
      as (w1 & -> & Htr & Htk).
    destruct (IH rest w1) as (w' & -> & Htr'); [cbn in Hlen; lia|].
    exists w'. split; [reflexivity|].
    rewrite Htr', Htr, Htk. cbn [map scans_events]. now rewrite <- app_assoc.
Qed.

End Gobuster.

Lemma sample_env_works : works Sample.env.
Proof.
  split; [reflexivity|]. intros argv. cbn.
  destruct argv as [|tool rest]; [eauto|].
  destruct (String.eqb tool "nmap"); eauto.
Qed.

Lemma scan_text_ports (E : Env) (f : string) (inp : list string) (w : World) :
  files w !! f = Some Sample.scan_text ->
  exists ports, parse_nmap_output E f inp w = (Ok ports, (inp, w)) /\ ports ≡ₚ [80; 443].
Proof.
  intros Hf. rewrite (parse_nmap_output_present E f _ inp w Hf).
  change (scan_lines _ ∅) with (Ok (A := gset Z) ({[443]} ∪ ({[80]} ∪ ∅))). cbv beta iota.
  eexists. split; [reflexivity|]. rewrite (set_order_perm E _).
  apply NoDup_Permutation; [apply NoDup_elements | |].
  - apply NoDup_cons. split; [|apply NoDup_singleton].
    rewrite list_elem_of_singleton. discriminate.
  - intros n. rewrite elem_of_elements, !elem_of_union, !elem_of_singleton,
      elem_of_cons, list_elem_of_singleton.
    pose proof (not_elem_of_empty (C := gset Z) n). tauto.
Qed.

(** C8. The sample result file gives exactly the ports 80 and 443.
    Choosing "scan all" runs the content-discovery step once for every
    detected port, one after the other, each with its own wordlist prompt,
    on the URL made of the scheme, the target and the port, and the scheme
    is "https" exactly for port 443. *)
Theorem scan_all_runs_gobuster_once_per_port (E : Env) :
  (forall f inp w, files w !! f = Some Sample.scan_text ->
     exists ports, parse_nmap_output E f inp w = (Ok ports, (inp, w)) /\ ports ≡ₚ [80; 443]) /\
  (forall path ip_address output_dir web_ports line inp w,
     works E -> PyStr.strip line = "1" -> (length web_ports <= length inp)%nat ->
     exists w' menu,
       gobuster_menu E path ip_address output_dir (line :: inp) web_ports w
         = (Ok tt, (drop (length web_ports) inp, w')) /\
       Forall console_only menu /\
       trace w' =
         (trace w ++ menu ++
          scans_events E output_dir
            (map (fun port => (PyStr.str_of_int port, port_url ip_address port)) web_ports)
            inp (ticks w))%list) /\
  (forall ip_address port,
     gobuster_url ip_address (PInt port) = port_url ip_address port /\
     (String.prefix "https://" (gobuster_url ip_address (PInt port)) = true <-> port = 443)) /\
  (forall ip_address,
     gobuster_url ip_address (PInt 80) = "http://" +:+ ip_address +:+ ":80" /\
     gobuster_url ip_address (PInt 443) = "https://" +:+ ip_address +:+ ":443") /\
  launched
    (snd (snd (main Sample.env
                 ["3"; "10.0.0.5"; "."; "done"; "1"; "/w/common.txt"; "/w/big.txt"]
                 Sample.world0))) =
    [ ["nmap"; "10.0.0.5"];
      ["gobuster"; "dir"; "-u"; "http://10.0.0.5:80"; "-w"; "/w/common.txt"];
      ["gobuster"; "dir"; "-u"; "https://10.0.0.5:443"; "-w"; "/w/big.txt"] ].
Proof.
  split; [apply scan_text_ports|]. split; [|split; [|split]].
  - intros path ip_address output_dir web_ports line inp w HE Hline Hlen.
    cbn [gobuster_menu]. rewrite Hline. cbn [String.eqb Ascii.eqb Bool.eqb].
    unfold bind, print.
    match goal with |- context [run_gobuster E _ _ _ inp ?W] =>
      destruct (run_gobuster_trace E HE ip_address (map PInt web_ports) output_dir inp W)
        as (w' & Hrun & Htr) end.
    { now rewrite length_map. }
    rewrite length_map in Hrun. rewrite Hrun.
    exists w'. eexists [Print _; Print _; Print _; Print _; Prompt _; Print _].
    split; [reflexivity|]. split; [repeat constructor|].
    rewrite Htr, map_map. cbn [trace log ticks]. rewrite <- !app_assoc. reflexivity.
  - intros ip_address port. split; [reflexivity|].
    unfold gobuster_url, gobuster_protocol, py_eq_int.
    destruct (Z.eqb_spec port 443) as [->|Hne].
    + split; [reflexivity|]. intros _. apply prefix_append. eauto.
    + split; [|contradiction]. rewrite prefix_append. intros [post H].
      rewrite !append_cons in H. discriminate.
  - intros ip_address. split; reflexivity.
  - vm_compute. reflexivity.
Qed.

Lemma scan_all_runs_gobuster_once_per_port_witness :
  exists w' menu,
    gobuster_menu Sample.env BothTools "10.0.0.5" "scans" ["1"; "/w/common.txt"; "/w/big.txt"]
      [80; 443] Sample.world0 = (Ok tt, (drop 2 ["/w/common.txt"; "/w/big.txt"], w')) /\
    Forall console_only menu /\
    trace w' =
      (trace Sample.world0 ++ menu ++
       scans_events Sample.env "scans"
         (map (fun port => (PyStr.str_of_int port, port_url "10.0.0.5" port)) [80; 443])
         ["/w/common.txt"; "/w/big.txt"] (ticks Sample.world0))%list.
Proof.
  apply (proj1 (proj2 (scan_all_runs_gobuster_once_per_port Sample.env))
           BothTools "10.0.0.5" "scans" [80; 443] "1" ["/w/common.txt"; "/w/big.txt"]
           Sample.world0 sample_env_works); [reflexivity | cbn; lia].
Defined.

(** C9. On the content-discovery-only path the ports typed by the user
    reach the runner as the raw pieces between the commas.  A string never
    equals the integer 443, so every URL gets the scheme "http", also for
    the entry "443", and the piece is put into the URL as it is, white
    space included. *)
Theorem gobuster_only_keeps_ports_as_strings (E : Env) :
  (forall ip_address token,
     gobuster_protocol (PStr token) = "http" /\
     gobuster_url ip_address (PStr token) = "http://" +:+ ip_address +:+ ":" +:+ token) /\
  (forall ip_address output_dir line inp w,
     works E -> (length (PyStr.split "," line) <= length inp)%nat ->
     exists w',
       gobuster_only E ip_address output_dir (line :: inp) w
         = (Ok tt, (drop (length (PyStr.split "," line)) inp, w')) /\
       trace w' =
         (trace w ++
          [ Print (nl +:+ "Configuring Gobuster scan...");
            Prompt "Enter the ports to scan (comma-separated, e.g., 80,443): " ] ++
          scans_events E output_dir
            (map (fun token => (token, "http://" +:+ ip_address +:+ ":" +:+ token))
                 (PyStr.split "," line))
            inp (ticks w))%list) /\
  PyStr.split "," "80, 443" = ["80"; " 443"] /\
  gobuster_url "10.0.0.5" (PStr "443") = "http://10.0.0.5:443" /\
  gobuster_url "10.0.0.5" (PStr " 443") = "http://10.0.0.5: 443" /\
  launched
    (snd (snd (main Sample.env ["2"; "10.0.0.5"; "."; "443,80"; "/w/common.txt"; "/w/big.txt"]
                 Sample.world0))) =
    [ ["gobuster"; "dir"; "-u"; "http://10.0.0.5:443"; "-w"; "/w/common.txt"];
      ["gobuster"; "dir"; "-u"; "http://10.0.0.5:80"; "-w"; "/w/big.txt"] ].
Proof.
  split; [intros; split; reflexivity|]. split; [|repeat split; vm_compute; reflexivity].
  intros ip_address output_dir line inp w HE Hlen.
  unfold gobuster_only, bind, print, input.
  match goal with |- context [run_gobuster E _ ?P _ inp ?W] =>
    destruct (run_gobuster_trace E HE ip_address P output_dir inp W)
      as (w' & Hrun & Htr) end.
  { now rewrite length_map. }
  rewrite length_map in Hrun. rewrite Hrun.
  exists w'. split; [reflexivity|]. rewrite Htr, map_map.
  cbn [trace log ticks]. now rewrite <- !app_assoc.
Qed.

Lemma gobuster_only_keeps_ports_as_strings_witness :
  exists w',
    gobuster_only Sample.env "10.0.0.5" "scans" ["80, 443"; "/w/common.txt"; "/w/big.txt"]
      Sample.world0
      = (Ok tt, (drop (length (PyStr.split "," "80, 443")) ["/w/common.txt"; "/w/big.txt"], w')) /\
    trace w' =
      (trace Sample.world0 ++
       [ Print (nl +:+ "Configuring Gobuster scan...");
         Prompt "Enter the ports to scan (comma-separated, e.g., 80,443): " ] ++
       scans_events Sample.env "scans"
         (map (fun token => (token, "http://" +:+ "10.0.0.5" +:+ ":" +:+ token))
              (PyStr.split "," "80, 443"))
         ["/w/common.txt"; "/w/big.txt"] (ticks Sample.world0))%list.
Proof.
  apply (proj1 (proj2 (gobuster_only_keeps_ports_as_strings Sample.env))
           "10.0.0.5" "scans" "80, 443" ["/w/common.txt"; "/w/big.txt"] Sample.world0
           sample_env_works).
  cbn. lia.
Defined.

(** ** The port-selection sub-loop *)

Section Selection.

Lemma list_in_elem_of (x : Z) (l : list Z) : list_in x l = true <-> x ∈ l.
Proof.
  unfold list_in. rewrite existsb_exists, list_elem_of_In. split.
  - intros (y & Hy & Heq). apply Z.eqb_eq in Heq. now subst.
  - intros H. exists x. split; [assumption | apply Z.eqb_refl].
Qed.

Lemma elem_of_list_remove (x y : Z) (l : list Z) :
  NoDup l -> (y ∈ list_remove x l <-> y ∈ l /\ y <> x).
Proof.
  induction 1 as [|z l Hz Hnd IH]; cbn [list_remove].
  - split; [intros H; inversion H | intros [H _]; inversion H].
  - destruct (Z.eqb_spec x z) as [->|Hne].
    + rewrite elem_of_cons. split.
      * intros H. split; [now right|]. intros ->. contradiction.
      * intros [[->|H] Hn]; [contradiction | assumption].
    + rewrite !elem_of_cons, IH. split.
      * intros [->|[H Hn]]; [split; [now left | congruence] | split; [now right | assumption]].
      * intros [[->|H] Hn]; [now left | right; split; assumption].
Qed.

Lemma NoDup_list_remove (x : Z) (l : list Z) : NoDup l -> NoDup (list_remove x l).
Proof.
  induction 1 as [|z l Hz Hnd IH]; cbn [list_remove]; [constructor|].
  destruct (x =? z); [assumption|].
  constructor; [|assumption]. rewrite elem_of_list_remove by assumption. tauto.
Qed.

Lemma select_decide_add (port_choice : string) (web_ports : list Z) (port : Z) :
  select_decide port_choice web_ports = SelAdd port ->
  port ∈ web_ports /\ PyStr.int port_choice = Some port /\ PyStr.isdigit port_choice = true.
Proof.
  unfold select_decide. destruct (String.eqb port_choice "done"); [discriminate|].
  destruct (PyStr.isdigit port_choice); [|discriminate].
  destruct (PyStr.int port_choice) as [n|]; [|discriminate].
  destruct (list_in n web_ports) eqn:Hin; [|discriminate].
  intros H; injection H as <-. apply list_in_elem_of in Hin. auto.
Qed.

Lemma select_decide_taken (port_choice : string) (web_ports : list Z) (port : Z) :
  PyStr.int port_choice = Some port -> port ∉ web_ports ->
  select_decide port_choice web_ports = SelInvalid.
Proof.
  intros Hint Hnot. unfold select_decide.
  destruct (String.eqb_spec port_choice "done") as [->|_]; [discriminate|].
  destruct (PyStr.isdigit port_choice); [|reflexivity].
  rewrite Hint. destruct (list_in port web_ports) eqn:Hin; [|reflexivity].
  apply list_in_elem_of in Hin. contradiction.
Qed.

Lemma selection_ok_add (web_ports gobuster_ports : list Z) (port : Z) :
  selection_ok web_ports gobuster_ports -> port ∈ web_ports ->
  selection_ok (list_remove port web_ports) (gobuster_ports ++ [port]).
Proof.
  intros (Hw & Hg & Hd) Hin. split; [now apply NoDup_list_remove|]. split.
  - apply NoDup_app. split; [assumption|]. split; [|apply NoDup_singleton].
    intros q Hq Hq'. apply list_elem_of_singleton in Hq' as ->. now apply (Hd port).
  - intros q Hq. rewrite elem_of_list_remove by assumption.
    apply elem_of_app in Hq as [Hq|Hq].
    + intros [Hq' _]. now apply (Hd q).
    + apply list_elem_of_singleton in Hq as ->. tauto.
Qed.

Lemma select_visits_ok (inp : list string) (web_ports gobuster_ports : list Z) :
  selection_ok web_ports gobuster_ports ->
  forall web gob, (web, gob) ∈ select_visits inp web_ports gobuster_ports ->
    selection_ok web gob.
Proof.
  revert web_ports gobuster_ports.
  induction inp as [|line inp IH]; intros web_ports gobuster_ports Hok web gob;
    cbn [select_visits]; rewrite elem_of_cons.
  - intros [[= -> ->]|H]; [assumption | inversion H].
  - intros [[= -> ->]|H]; [assumption|].
    destruct (select_decide (PyStr.strip line) web_ports) as [|port| |e] eqn:Hdec;
      try (now inversion H).
    + apply select_decide_add in Hdec as (Hin & _).
      eapply IH; [|exact H]. now apply selection_ok_add.
    + eapply IH; [|exact H]. assumption.
Qed.

Lemma select_ports_visits (path : scan_path) (inp : list string)
    (web_ports gobuster_ports : list Z) (w : World) :
  forall web gob inp' w',
    select_ports path inp web_ports gobuster_ports w = (Ok (web, gob), (inp', w')) ->
    (web, gob) ∈ select_visits inp web_ports gobuster_ports.
Proof.
  revert web_ports gobuster_ports w.
  induction inp as [|line inp IH]; intros web_ports gobuster_ports w web gob inp' w';
    cbn [select_ports select_visits]; [discriminate|].
  destruct (select_decide (PyStr.strip line) web_ports) as [|port| |e].
  - intros [= <- <- _ _]. now left.
  - intros H. right. eapply IH. exact H.
  - intros H. right. eapply IH. exact H.
  - discriminate.
Qed.

(** The loop comes to an end on "done", with the state it has then. *)
Lemma select_ports_total (path : scan_path) (inp : list string)
    (web_ports gobuster_ports : list Z) (w : World) :
  exists r inp' w',
    select_ports path inp web_ports gobuster_ports w = (r, (inp', w')) /\
    match r with
    | Ok (web, gob) => (web, gob) ∈ select_visits inp web_ports gobuster_ports
    | Raise e => e = EOFError \/ e = ValueError
    end.
Proof.
  revert web_ports gobuster_ports w.
  induction inp as [|line inp IH]; intros web_ports gobuster_ports w;
    cbn [select_ports select_visits].
  - eexists _, _, _. split; [reflexivity|]. now left.
  - destruct (select_decide (PyStr.strip line) web_ports) as [|port| |e] eqn:Hdec.
    + eexists _, _, _. split; [reflexivity|]. now left.
    + edestruct IH as (r & inp' & w' & -> & Hr). eexists _, _, _. split; [reflexivity|].
      destruct r as [[web gob]|e]; [now right | assumption].
    + edestruct IH as (r & inp' & w' & -> & Hr). eexists _, _, _. split; [reflexivity|].
      destruct r as [[web gob]|e]; [now right | assumption].
    + eexists _, _, _. split; [reflexivity|]. right.
      unfold select_decide in Hdec.
      destruct (String.eqb (PyStr.strip line) "done"); [discriminate|].
      destruct (PyStr.isdigit (PyStr.strip line)); [|discriminate].
      destruct (PyStr.int (PyStr.strip line)) as [n|]; [|congruence].
      destruct (list_in n web_ports); discriminate.
Qed.

End Selection.

(** C7. In the selection sub-loop a selected port leaves the list of
    available ports: at every turn of the loop the selected ports and the
    available ports have nothing in common and no port is selected twice,
    and entering a port that was selected before is answered as invalid
    input.  The list of available ports comes from a set, so it has no
    repetition to begin with. *)
Theorem selected_port_is_no_longer_available (path : scan_path) (inp : list string)
    (web_ports : list Z) (w : World) :
  NoDup web_ports ->
  (forall web gob, (web, gob) ∈ select_visits inp web_ports [] ->
     selection_ok web gob /\
     (forall port_choice port,
        select_decide port_choice web = SelAdd port ->
        port ∈ web /\ (port ∉ gob) /\ (port ∉ list_remove port web)) /\
     (forall port_choice port,
        port ∈ gob -> PyStr.int port_choice = Some port ->
        select_decide port_choice web = SelInvalid)) /\
  (forall web gob inp' w',
     select_ports path inp web_ports [] w = (Ok (web, gob), (inp', w')) ->
     (web, gob) ∈ select_visits inp web_ports []) /\
  select_ports NmapThenAsk ["80"; "80"; "done"] [80; 443] [] Sample.world0 =
    (Ok ([443], [80]),
     ([], {| trace :=
               [ Print (nl +:+ "Ports available for selection: 80, 443");
                 Print "No ports added yet.";
                 Prompt "Enter a port to scan (or 'done' to finish selection): ";
                 Print "Added port 80 for Gobuster scan.";
                 Print (nl +:+ "Ports available for selection: 443");
                 Print "Ports already added for Gobuster scan: 80";
                 Prompt "Enter a port to scan (or 'done' to finish selection): ";
                 Print "Invalid input. Please enter a valid port from the list: 443.";
                 Print (nl +:+ "Ports available for selection: 443");
                 Print "Ports already added for Gobuster scan: 80";
                 Prompt "Enter a port to scan (or 'done' to finish selection): " ];
             files := ∅; ticks := 0 |})).
Proof.
  intros Hnd. split; [|split].
  - intros web gob Hin.
    assert (Hok : selection_ok web gob).
    { eapply select_visits_ok; [|exact Hin]. split; [assumption|]. split; [constructor|].
      intros q Hq. inversion Hq. }
    split; [assumption|]. destruct Hok as (Hw & Hg & Hd). split.
    + intros port_choice port Hdec. apply select_decide_add in Hdec as (Hp & _).
      split; [assumption|]. split.
      * intros Hg'. now apply (Hd port).
      * rewrite elem_of_list_remove by assumption. tauto.
    + intros port_choice port Hp Hint. apply (select_decide_taken _ _ port); auto.
  - apply select_ports_visits.
  - vm_compute. reflexivity.
Qed.

Lemma selected_port_is_no_longer_available_witness : selection_ok [443] [80].
Proof.
  assert (Hnd : NoDup [80; 443]) by (apply (bool_decide_unpack _); vm_compute; exact I).
  apply (proj1 (proj1 (selected_port_is_no_longer_available NmapThenAsk
                         ["80"; "80"; "done"] [80; 443] Sample.world0 Hnd)
                  [443] [80]
                  (list_elem_of_lookup_2
                     (select_visits ["80"; "80"; "done"] [80; 443] []) 1%nat
                     ([443], [80]) eq_refl))).
Defined.

(** ** Command lines *)

Section CommandLines.

Lemma split_ws_from_space (a b : string) (cur : option string) :
  PyStr.split_ws_from (a +:+ String " " b) cur =
    (PyStr.split_ws_from a cur ++ PyStr.split_ws b)%list.
Proof.
  revert cur; induction a as [|c a IH]; intros cur.
  - rewrite append_nil_l. cbn. destruct cur; reflexivity.
  - rewrite append_cons. cbn [PyStr.split_ws_from].
    destruct (PyStr.isspace c); [destruct cur|]; rewrite IH; reflexivity.
Qed.

Lemma split_ws_space (a b : string) :
  PyStr.split_ws (a +:+ String " " b) = (PyStr.split_ws a ++ PyStr.split_ws b)%list.
Proof. apply split_ws_from_space. Qed.

Lemma split_ws_from_word (s : string) (cur : string) :
  no_space s ->
  PyStr.split_ws_from s (Some cur) = [cur +:+ s].
Proof.
  unfold no_space. revert cur; induction s as [|c s IH]; intros cur H.
  - now rewrite append_nil_r.
  - cbn in H. apply andb_true_iff in H as [Hc Hs]. apply negb_true_iff in Hc.
    cbn [PyStr.split_ws_from]. rewrite Hc, IH by assumption.
    now rewrite append_assoc.
Qed.

Lemma split_ws_word (s : string) :
  no_space s -> PyStr.split_ws s = if nonempty s then [s] else [].
Proof.
  destruct s as [|c s]; [reflexivity|]. intros H. unfold PyStr.split_ws.
  cbn [PyStr.split_ws_from]. pose proof H as H'. unfold no_space in H'. cbn in H'.
  apply andb_true_iff in H' as [Hc Hs]. apply negb_true_iff in Hc. rewrite Hc.
  now rewrite split_ws_from_word.
Qed.

Lemma split_ws_join (l : list string) :
  Forall no_space l ->
  PyStr.split_ws (PyStr.join " " l) = filter (fun s => nonempty s = true) l.
Proof.
  induction 1 as [|s l Hs Hl IH]; [reflexivity|].
  destruct l as [|t l].
  - cbn [PyStr.join]. rewrite split_ws_word by assumption.
    rewrite filter_cons, filter_nil. destruct (nonempty s); [|reflexivity].
    now rewrite decide_True.
  - change (PyStr.join " " (s :: t :: l)) with (s +:+ String " " (PyStr.join " " (t :: l))).
    rewrite split_ws_space, IH, split_ws_word by assumption.
    rewrite (filter_cons _ s). destruct (nonempty s).
    + now rewrite decide_True.
    + now rewrite decide_False.
Qed.

Lemma option_flag_no_space (choice flag : string) :
  option_mapping !! choice = Some flag -> no_space flag.
Proof.
  intros H. unfold option_mapping in H. apply elem_of_list_to_map_2 in H.
  repeat (apply elem_of_cons in H as [[= _ ->]|H]; [reflexivity|]).
  inversion H.
Qed.

End CommandLines.

(** The port-scan command cut into words: "nmap", the flags that are not
    empty, the words of the target. *)
Lemma split_ws_nmap_command (nmap_options : list string) (ip_address : string) :
  (forall flag, flag ∈ nmap_options -> exists choice, option_mapping !! choice = Some flag) ->
  PyStr.split_ws (nmap_command (PyStr.join " " nmap_options) ip_address) =
    nmap_argv nmap_options ip_address.
Proof.
  intros Hflags. unfold nmap_command, nmap_argv.
  change ("nmap " +:+ PyStr.join " " nmap_options +:+ " " +:+ ip_address)
    with ("nmap" +:+ String " " (PyStr.join " " nmap_options +:+ String " " ip_address)).
  rewrite !split_ws_space, split_ws_join; [reflexivity|].
  apply Forall_forall. intros flag Hin. destruct (Hflags flag Hin) as [choice Hc].
  eapply option_flag_no_space, Hc.
Qed.

(** The content-discovery command cut into words. *)
Lemma split_ws_gobuster_command (url wordlist : string) :
  PyStr.split_ws (gobuster_command url wordlist) =
    (["gobuster"; "dir"; "-u"] ++ PyStr.split_ws url
       ++ ["-w"] ++ PyStr.split_ws wordlist)%list.
Proof.
  unfold gobuster_command.
  change ("gobuster dir -u " +:+ url +:+ " -w " +:+ wordlist)
    with ("gobuster" +:+ String " " ("dir" +:+ String " " ("-u" +:+ String " "
            (url +:+ String " " ("-w" +:+ String " " wordlist))))).
  now rewrite !split_ws_space.
Qed.

(** ** Names the sanitizer leaves alone *)

Section FixedPoints.

Lemma length_map_str (f : ascii -> ascii) (s : string) :
  String.length (PyStr.map_str f s) = String.length s.
Proof. induction s as [|c s IH]; [reflexivity|]. cbn. now rewrite IH. Qed.

Lemma length_append (a b : string) :
  String.length (a +:+ b) = (String.length a + String.length b)%nat.
Proof.
  induction a as [|c a IH]; [reflexivity|]. rewrite append_cons. cbn. now rewrite IH.
Qed.

Lemma length_lstrip (p : ascii -> bool) (s : string) :
  (String.length (PyStr.lstrip_with p s) <= String.length s)%nat.
Proof.
  induction s as [|c s IH]; [reflexivity|]. cbn [PyStr.lstrip_with].
  destruct (p c); cbn [String.length]; lia.
Qed.

Lemma length_rstrip (p : ascii -> bool) (s : string) :
  (String.length (PyStr.rstrip_with p s) <= String.length s)%nat.
Proof.
  induction s as [|c s IH]; [reflexivity|]. cbn [PyStr.rstrip_with].
  destruct (PyStr.rstrip_with p s); [destruct (p c)|]; cbn [String.length] in *; lia.
Qed.

Lemma prefix_slashes_inv (c : ascii) (s : string) :
  String.prefix "//" (String c s) = true -> exists rest, s = String "/" rest.
Proof.
  intros H. apply prefix_append in H as [post H].
  rewrite !append_cons, append_nil_l in H. injection H as _ ->. eauto.
Qed.

Lemma length_replace_slashes (s : string) (k : nat) :
  (k <= 1)%nat ->
  (String.length (PyStr.replace_from "//" "/" s k) <= String.length s - k)%nat.
Proof.
  revert k; induction s as [|c s IH]; intros k Hk; [cbn; lia|].
  cbn [PyStr.replace_from]. destruct k as [|k].
  - destruct (String.prefix "//" (String c s)) eqn:Hp.
    + destruct (prefix_slashes_inv _ _ Hp) as [rest ->].
      rewrite append_cons, append_nil_l.
      specialize (IH 1%nat (le_n _)). cbn [String.length Nat.sub] in *. lia.
    + specialize (IH 0%nat ltac:(lia)). cbn [String.length]. lia.
  - specialize (IH k ltac:(lia)). cbn [String.length]. lia.
Qed.

Lemma length_replace_slashes_lt (s : string) :
  PyStr.contains "//" s = true ->
  (String.length (PyStr.replace "//" "/" s) < String.length s)%nat.
Proof.
  unfold PyStr.replace. induction s as [|c s IH]; [discriminate|].
  cbn [PyStr.contains PyStr.replace_from]. intros H.
  destruct (String.prefix "//" (String c s)) eqn:Hp.
  - destruct (prefix_slashes_inv _ _ Hp) as [rest ->].
    rewrite append_cons, append_nil_l.
    pose proof (length_replace_slashes (String "/" rest) 1 (le_n _)) as Hl.
    cbn [String.length Nat.sub] in *. lia.
  - cbn in H. specialize (IH H). cbn [String.length]. lia.
Qed.

Lemma re_sub_slash (c : ascii) :
  (if allowed_characters c then c else "_"%char) = "/"%char <-> c = "/"%char.
Proof.
  destruct (allowed_characters c) eqn:Hc; [reflexivity|].
  split; [discriminate|]. intros ->. discriminate.
Qed.

Lemma prefix_slashes_re_sub (s : string) :
  String.prefix "//" (re_sub_disallowed s) = String.prefix "//" s.
Proof.
  apply eq_true_iff_eq. rewrite !prefix_append. unfold re_sub_disallowed. split.
  - intros [post H].
    destruct s as [|c [|d s]]; cbn [PyStr.map_str] in H;
      rewrite !append_cons, append_nil_l in H; try discriminate.
    injection H as Hc Hd _.
    apply (proj1 (re_sub_slash c)) in Hc. apply (proj1 (re_sub_slash d)) in Hd.
    subst. now exists s.
  - intros [post ->]. rewrite !append_cons, append_nil_l. cbn [PyStr.map_str].
    eexists. reflexivity.
Qed.

Lemma contains_slashes_re_sub (s : string) :
  PyStr.contains "//" (re_sub_disallowed s) = PyStr.contains "//" s.
Proof.
  induction s as [|c s IH]; [reflexivity|].
  rewrite (contains_cons "//" c s), <- IH, <- prefix_slashes_re_sub.
  reflexivity.
Qed.

Lemma sanitize_name_clean (name : string) :
  only_allowed name -> trimmed name -> PyStr.contains "//" name = false ->
  sanitize_name name = name.
Proof.
  intros Hall [Hl Hr] Hno. unfold sanitize_name.
  rewrite (map_allowed_id name Hall), (replace_absent _ _ _ Hno).
  unfold PyStr.strip_chars, PyStr.strip_with.
  rewrite lstrip_id.
  - apply rstrip_id. intros r c ->. cbn.
    destruct (Ascii.eqb_spec c "/") as [->|_]; [now destruct (Hr r) | reflexivity].
  - intros c r ->. cbn.
    destruct (Ascii.eqb_spec c "/") as [->|_]; [now destruct (Hl r) | reflexivity].
Qed.

Lemma length_sanitize_name (name : string) :
  (String.length (sanitize_name name) <= String.length name)%nat.
Proof.
  unfold sanitize_name, PyStr.strip_chars, PyStr.strip_with, PyStr.replace.
  etransitivity; [apply length_rstrip|]. etransitivity; [apply length_lstrip|].
  etransitivity; [apply (length_replace_slashes _ 0); lia|].
  unfold re_sub_disallowed. rewrite length_map_str. lia.
Qed.

End FixedPoints.

(** X3. The names the sanitizer returns unchanged are exactly those made
    of allowlisted characters only, with no separator at either end and no
    doubled separator inside; every other name comes back different (and
    never longer).  These are the directory names [get_output_directory]
    takes without asking for confirmation. *)
Theorem sanitize_name_fixed_points (name : string) :
  (sanitize_name name = name <->
   only_allowed name /\ trimmed name /\ PyStr.contains "//" name = false) /\
  (String.length (sanitize_name name) <= String.length name)%nat.
Proof.
  split; [|apply length_sanitize_name]. split.
  - intros Heq. split; [|split].
    + rewrite <- Heq. apply sanitize_name_only_allowed.
    + rewrite <- Heq. apply sanitize_name_trimmed.
    + destruct (PyStr.contains "//" name) eqn:Hc; [exfalso | reflexivity].
      rewrite <- contains_slashes_re_sub in Hc. apply length_replace_slashes_lt in Hc.
      assert (String.length (sanitize_name name) < String.length name)%nat; [|rewrite Heq in *; lia].
      unfold sanitize_name, PyStr.strip_chars, PyStr.strip_with.
      eapply Nat.le_lt_trans; [apply length_rstrip|].
      eapply Nat.le_lt_trans; [apply length_lstrip|].
      eapply Nat.lt_le_trans; [exact Hc|].
      unfold re_sub_disallowed. rewrite length_map_str. lia.
  - intros (Hall & Htr & Hno). now apply sanitize_name_clean.
Qed.

(** X4. Whatever the target typed by the user, the token that [clean_url]
    makes of it for the result file name holds allowlisted characters only
    (no ":", "#", "?" or blank) and has no separator at either end. *)
Theorem clean_url_is_allowlisted (url : string) :
  only_allowed (clean_url url) /\ trimmed (clean_url url).
Proof.
  rewrite clean_url_unfold. split;
    [apply sanitize_name_only_allowed | apply sanitize_name_trimmed].
Qed.

(** ** The output directory *)

Section OutputDirectory.

Variable E : Env.
Hypothesis Hmk : makedirs_raises_OSError E.

Lemma quiet_refl (w : World) : quiet w w.
Proof. repeat split. Qed.

Lemma quiet_log (e : event) (w w' : World) :
  console_only e -> quiet w w' -> quiet w (log e w').
Proof.
  intros He (Hf & Hl & Ht). repeat split; [exact Hf | | exact Ht].
  now rewrite launched_log.
Qed.

Lemma quiet_trans (w1 w2 w3 : World) : quiet w1 w2 -> quiet w2 w3 -> quiet w1 w3.
Proof. intros (? & ? & ?) (? & ? & ?). repeat split; congruence. Qed.

Lemma ensure_directory_cases (sanitized_dir : string) (w : World) :
  match ensure_directory E sanitized_dir w with
  | (Ok (Some dir), w') =>
      dir = (if String.eqb sanitized_dir "." then cwd E else sanitized_dir) /\
      (path_exists E dir = true \/ makedirs E dir = None) /\ quiet w w'
  | (Ok None, w') => quiet w w'
  | (Raise _, _) => False
  end.
Proof.
  unfold ensure_directory.
  set (dir := if String.eqb sanitized_dir "." then cwd E else sanitized_dir).
  destruct (path_exists E dir) eqn:Hex; cbn [negb].
  - split; [reflexivity|]. split; [now left | apply quiet_refl].
  - destruct (makedirs E dir) as [e|] eqn:Hm.
    + rewrite (Hmk dir e Hm). apply quiet_log; [exact I|]. apply quiet_log; [exact I|].
      apply quiet_refl.
    + split; [reflexivity|]. split; [now right|]. apply quiet_log; [exact I | apply quiet_refl].
Qed.

Lemma get_output_directory_cases_aux (n : nat) :
  forall inp w, (length inp <= n)%nat ->
  match get_output_directory E inp w with
  | (Ok dir, (inp', w')) =>
      (path_exists E dir = true \/ makedirs E dir = None) /\
      (dir = cwd E \/
       exists line, line ∈ inp /\ dir = sanitize_name (PyStr.strip line)) /\
      quiet w w'
  | (Raise e, (inp', _)) => e = EOFError /\ inp' = []
  end.
Proof.
  induction n as [|n IH]; intros inp w Hlen.
  - destruct inp; [|cbn in Hlen; lia]. cbn. auto.
  - destruct inp as [|line inp]; [cbn; auto|]. cbn [length] in Hlen.
    cbn [get_output_directory].
    set (sd := sanitize_name (PyStr.strip line)).
    set (w1 := log _ w).
    assert (Hq1 : quiet w w1) by (apply quiet_log; [exact I | apply quiet_refl]).
    assert (Hafter : forall inp2 w2, (length inp2 <= n)%nat -> quiet w w2 ->
              (forall l, l ∈ inp2 -> l ∈ line :: inp) ->
              match
                match ensure_directory E sd w2 with
                | (Ok (Some dir), w3) => (Ok dir, (inp2, w3))
                | (Ok None, w3) => get_output_directory E inp2 w3
                | (Raise e, w3) => (Raise e, (inp2, w3))
                end
              with
              | (Ok dir, (inp', w')) =>
                  (path_exists E dir = true \/ makedirs E dir = None) /\
                  (dir = cwd E \/
                   exists l, l ∈ line :: inp /\ dir = sanitize_name (PyStr.strip l)) /\
                  quiet w w'
              | (Raise e, (inp', _)) => e = EOFError /\ inp' = []
              end).
    { intros inp2 w2 Hlen2 Hq2 Hsub.
      pose proof (ensure_directory_cases sd w2) as Hens.
      destruct (ensure_directory E sd w2) as [[[dir|]|e] w3]; [| |contradiction].
      - destruct Hens as (Hdir & Hex & Hq3). split; [exact Hex|]. split.
        + destruct (String.eqb sd "."); [now left|]. right. exists line.
          split; [now left | exact Hdir].
        + eapply quiet_trans; eassumption.
      - specialize (IH inp2 w3 Hlen2).
        destruct (get_output_directory E inp2 w3) as [[dir|e] [inp' w']]; [|exact IH].
        destruct IH as (Hex & Hdir & Hq). split; [exact Hex|]. split.
        + destruct Hdir as [?|(l & Hl & ?)]; [now left|]. right. exists l. auto.
        + eapply quiet_trans; [|exact Hq]. eapply quiet_trans; eassumption. }
    destruct (negb (String.eqb sd (PyStr.strip line))).
    + destruct inp as [|line2 inp]; [cbn; auto|]. cbn [length] in Hlen.
      set (w2 := log _ (log _ w1)).
      assert (Hq2 : quiet w w2).
      { apply quiet_log; [exact I|]. apply quiet_log; [exact I | exact Hq1]. }
      destruct (negb (String.eqb (PyStr.lower (PyStr.strip line2)) "y")).
      * specialize (IH inp w2 ltac:(lia)).
        destruct (get_output_directory E inp w2) as [[dir|e] [inp' w']]; [|exact IH].
        destruct IH as (Hex & Hdir & Hq). split; [exact Hex|]. split.
        -- destruct Hdir as [?|(l & Hl & ?)]; [now left|]. right. exists l.
           split; [now do 2 right | assumption].
        -- eapply quiet_trans; eassumption.
      * apply Hafter; [lia | exact Hq2 |]. intros l Hl. now do 2 right.
    + apply Hafter; [lia | exact Hq1 |]. intros l Hl. now right.
Qed.

End OutputDirectory.

Section OutputDirectoryNames.

Variable E : Env.
Hypothesis Hmk : makedirs_raises_OSError E.

Lemma ensure_directory_of (line : string) (w : World) :
  match ensure_directory E (sanitize_name (PyStr.strip line)) w with
  | (Ok (Some dir), w') =>
      dir = directory_of E line /\
      (path_exists E dir = true \/ makedirs E dir = None) /\ quiet w w'
  | (Ok None, w') =>
      path_exists E (directory_of E line) = false /\
      (exists e, makedirs E (directory_of E line) = Some e) /\ quiet w w'
  | (Raise _, _) => False
  end.
Proof.
  unfold ensure_directory, directory_of.
  set (dir := if String.eqb (sanitize_name (PyStr.strip line)) "." then cwd E
              else sanitize_name (PyStr.strip line)).
  destruct (path_exists E dir) eqn:Hex; cbn [negb].
  - split; [reflexivity|]. split; [now left | apply quiet_refl].
  - destruct (makedirs E dir) as [e|] eqn:Hm.
    + rewrite (Hmk dir e Hm). split; [reflexivity|]. split; [eauto|].
      apply quiet_log; [exact I|]. apply quiet_log; [exact I|]. apply quiet_refl.
    + split; [reflexivity|]. split; [now right|].
      apply quiet_log; [exact I | apply quiet_refl].
Qed.

Lemma get_output_directory_accepts_aux (n : nat) :
  forall inp w, (length inp <= n)%nat ->
  match get_output_directory E inp w with
  | (Ok dir, (inp', w')) =>
      (path_exists E dir = true \/ makedirs E dir = None) /\
      (exists pre line after,
         inp = (pre ++ line :: after)%list /\ accepted_name line after inp' /\
         dir = directory_of E line) /\
      quiet w w'
  | (Raise e, (inp', _)) => e = EOFError /\ inp' = []
  end.
Proof.
  induction n as [|n IH]; intros inp w Hlen.
  - destruct inp; [|cbn in Hlen; lia]. cbn. auto.
  - destruct inp as [|line inp]; [cbn; auto|]. cbn [length] in Hlen.
    cbn [get_output_directory].
    set (w1 := log _ w).
    assert (Hq1 : quiet w w1) by (apply quiet_log; [exact I | apply quiet_refl]).
    assert (Hrec : forall skipped inp2 w2, (length inp2 <= n)%nat -> quiet w w2 ->
              line :: inp = (skipped ++ inp2)%list ->
              match get_output_directory E inp2 w2 with
              | (Ok dir, (inp', w')) =>
                  (path_exists E dir = true \/ makedirs E dir = None) /\
                  (exists pre l after,
                     line :: inp = (pre ++ l :: after)%list /\
                     accepted_name l after inp' /\ dir = directory_of E l) /\
                  quiet w w'
              | (Raise e, (inp', _)) => e = EOFError /\ inp' = []
              end).
    { intros skipped inp2 w2 Hlen2 Hq2 Heq. specialize (IH inp2 w2 Hlen2).
      destruct (get_output_directory E inp2 w2) as [[dir|e] [inp' w']]; [|exact IH].
      destruct IH as (Hex & (pre & l & after & Hinp & Hacc & Hdir) & Hq).
      split; [exact Hex|]. split; [|eapply quiet_trans; eassumption].
      exists (skipped ++ pre)%list, l, after. split; [|split; assumption].
      rewrite Heq, Hinp. now rewrite app_assoc. }
    pose proof (fun w2 => ensure_directory_of line w2) as Hens.
    destruct (String.eqb_spec (sanitize_name (PyStr.strip line)) (PyStr.strip line))
      as [Hclean|Hdirty]; cbn [negb].
    + specialize (Hens w1).
      destruct (ensure_directory E (sanitize_name (PyStr.strip line)) w1)
        as [[[dir|]|e] w3]; [| |contradiction].
      * destruct Hens as (Hdir & Hex & Hq3). split; [exact Hex|].
        split; [|eapply quiet_trans; eassumption].
        exists [], line, inp. split; [reflexivity|]. split; [|exact Hdir].
        left. split; [exact Hclean | reflexivity].
      * destruct Hens as (_ & _ & Hq3).
        apply (Hrec [line]); [lia | eapply quiet_trans; eassumption | reflexivity].
    + destruct inp as [|line2 inp]; [cbn; auto|]. cbn [length] in Hlen.
      set (w2 := log _ (log _ w1)).
      assert (Hq2 : quiet w w2).
      { apply quiet_log; [exact I|]. apply quiet_log; [exact I | exact Hq1]. }
      destruct (String.eqb_spec (PyStr.lower (PyStr.strip line2)) "y") as [Hy|Hn];
        cbn [negb].
      * specialize (Hens w2).
        destruct (ensure_directory E (sanitize_name (PyStr.strip line)) w2)
          as [[[dir|]|e] w3]; [| |contradiction].
        -- destruct Hens as (Hdir & Hex & Hq3). split; [exact Hex|].
           split; [|eapply quiet_trans; eassumption].
           exists [], line, (line2 :: inp). split; [reflexivity|]. split; [|exact Hdir].
           right. split; [exact Hdirty|]. exists line2. split; [reflexivity | exact Hy].
        -- destruct Hens as (_ & _ & Hq3).
           apply (Hrec [line; line2]); [lia | eapply quiet_trans; eassumption | reflexivity].
      * apply (Hrec [line; line2]); [lia | exact Hq2 | reflexivity].
Qed.

Lemma get_output_directory_refused (line answer : string) (rest : list string) (w : World) :
  sanitize_name (PyStr.strip line) <> PyStr.strip line ->
  PyStr.lower (PyStr.strip answer) <> "y" ->
  exists w',
    get_output_directory E (line :: answer :: rest) w = get_output_directory E rest w' /\
    quiet w w'.
Proof.
  intros Hdirty Hn. cbn [get_output_directory].
  apply String.eqb_neq in Hdirty, Hn. rewrite Hdirty, Hn. cbn [negb].
  eexists. split; [reflexivity|]. repeat (apply quiet_log; [exact I|]). apply quiet_refl.
Qed.

Lemma get_output_directory_not_created (line : string) (rest : list string) (w : World)
    (e : exn) :
  sanitize_name (PyStr.strip line) = PyStr.strip line ->
  path_exists E (directory_of E line) = false ->
  makedirs E (directory_of E line) = Some e ->
  exists w',
    get_output_directory E (line :: rest) w = get_output_directory E rest w' /\
    quiet w w'.
Proof.
  intros Hclean Hex Hm. cbn [get_output_directory].
  apply String.eqb_eq in Hclean. rewrite Hclean. cbn [negb].
  unfold ensure_directory.
  change (if String.eqb (sanitize_name (PyStr.strip line)) "." then cwd E
          else sanitize_name (PyStr.strip line)) with (directory_of E line).
  rewrite Hex. cbn [negb]. rewrite Hm, (Hmk _ e Hm).
  eexists. split; [reflexivity|]. repeat (apply quiet_log; [exact I|]). apply quiet_refl.
Qed.

End OutputDirectoryNames.


(** X5. Asking for the output directory ends in one of two ways.  Either
    with a directory that exists or was just created: it is made from one
    line of the input that was clean as typed, or that was sanitized and
    confirmed with "y" on the line after it, "." standing for the working
    directory; it is the working directory or a name of allowlisted
    characters with no separator at either end (so never an absolute
    path), the input left is what follows that line and its answer, and no
    file was touched and nothing launched.  Or, when the input runs out,
    with [EOFError].  A name whose confirmation is refused is dropped, and
    a name whose directory cannot be created is dropped: in both cases the
    prompt comes again on the rest of the input. *)
Theorem get_output_directory_result (E : Env) (inp : list string) (w : World) :
  makedirs_raises_OSError E ->
  match get_output_directory E inp w with
  | (Ok dir, (inp', w')) =>
      (path_exists E dir = true \/ makedirs E dir = None) /\
      (exists pre line after,
         inp = (pre ++ line :: after)%list /\ accepted_name line after inp' /\
         dir = directory_of E line) /\
      (dir = cwd E \/ only_allowed dir /\ trimmed dir) /\
      quiet w w'
  | (Raise e, (inp', _)) => e = EOFError /\ inp' = []
  end /\
  (forall line answer rest w0,
     sanitize_name (PyStr.strip line) <> PyStr.strip line ->
     PyStr.lower (PyStr.strip answer) <> "y" ->
     exists w',
       get_output_directory E (line :: answer :: rest) w0 = get_output_directory E rest w' /\
       quiet w0 w') /\
  (forall line rest w0 e,
     sanitize_name (PyStr.strip line) = PyStr.strip line ->
     path_exists E (directory_of E line) = false ->
     makedirs E (directory_of E line) = Some e ->
     exists w',
       get_output_directory E (line :: rest) w0 = get_output_directory E rest w' /\
       quiet w0 w').
Proof.
  intros Hmk. split; [|split].
  - pose proof (get_output_directory_accepts_aux E Hmk (length inp) inp w (le_n _)) as H.
    destruct (get_output_directory E inp w) as [[dir|e] [inp' w']]; [|exact H].
    destruct H as (Hex & (pre & line & after & Hinp & Hacc & Hdir) & Hq).
    split; [exact Hex|]. split; [eauto 10|]. split; [|exact Hq].
    rewrite Hdir. unfold directory_of.
    destruct (String.eqb (sanitize_name (PyStr.strip line)) "."); [now left|]. right.
    split; [apply sanitize_name_only_allowed | apply sanitize_name_trimmed].
  - intros line answer rest w0. apply get_output_directory_refused.
  - intros line rest w0 e. now apply get_output_directory_not_created.
Qed.

Lemma sample_makedirs_raises_OSError : makedirs_raises_OSError Sample.env.
Proof. intros path e H. discriminate. Qed.

Lemma get_output_directory_result_witness :
  match get_output_directory Sample.env ["/tmp/out"; "n"; "scans"] Sample.world0 with
  | (Ok dir, (inp', w')) =>
      (path_exists Sample.env dir = true \/ makedirs Sample.env dir = None) /\
      (exists pre line after,
         ["/tmp/out"; "n"; "scans"] = (pre ++ line :: after)%list /\
         accepted_name line after inp' /\ dir = directory_of Sample.env line) /\
      (dir = cwd Sample.env \/ only_allowed dir /\ trimmed dir) /\
      quiet Sample.world0 w'
  | (Raise e, (inp', _)) => e = EOFError /\ inp' = []
  end.
Proof.
  apply (proj1 (get_output_directory_result Sample.env ["/tmp/out"; "n"; "scans"]
                  Sample.world0 ltac:(intros path e H; discriminate))).
Defined.

(** ** The option menu of the port scan *)

Section OptionMenu.

Lemma str_in_elem_of (x : string) (l : list string) : str_in x l = true <-> x ∈ l.
Proof.
  unfold str_in. rewrite existsb_exists, list_elem_of_In. split.
  - intros (y & Hy & Heq). apply String.eqb_eq in Heq. now subst.
  - intros H. exists x. split; [assumption | apply String.eqb_refl].
Qed.

Lemma says_done_cons (line : string) (inp : list string) :
  says_done (line :: inp) <-> PyStr.strip line = "done" \/ says_done inp.
Proof.
  unfold says_done. split.
  - intros (l & Hin & Hl). apply elem_of_cons in Hin as [->|Hin]; [now left|].
    right. eauto.
  - intros [H|(l & Hin & Hl)]; [exists line; split; [now left | exact H]|].
    exists l. split; [now right | exact Hl].
Qed.

Lemma nmap_options_loop_cases (inp : list string) :
  forall nmap_options w,
  NoDup nmap_options ->
  (forall flag, flag ∈ nmap_options -> exists choice, option_mapping !! choice = Some flag) ->
  match nmap_options_loop inp nmap_options w with
  | (Ok opts, (inp', w')) =>
      says_done inp /\ opts <> [] /\ NoDup opts /\
      (forall flag, flag ∈ opts -> exists choice, option_mapping !! choice = Some flag) /\
      quiet w w'
  | (Raise e, (inp', _)) => e = EOFError /\ inp' = [] /\ ~ says_done inp
  end.
Proof.
  induction inp as [|line inp IH]; intros nmap_options w Hnd Hflags.
  - cbn. split; [reflexivity|]. split; [reflexivity|].
    intros (l & Hin & _). inversion Hin.
  - cbn [nmap_options_loop]. set (w1 := log _ w).
    assert (Hq1 : quiet w w1) by (apply quiet_log; [exact I | apply quiet_refl]).
    destruct (String.eqb_spec (PyStr.strip line) "done") as [Hd|Hd].
    + assert (Hs : says_done (line :: inp)) by (apply says_done_cons; now left).
      destruct nmap_options as [|flag opts].
      * split; [exact Hs|]. split; [discriminate|]. split; [apply NoDup_singleton|]. split.
        -- intros flag Hin. apply list_elem_of_singleton in Hin as ->. now exists "5".
        -- apply quiet_log; [exact I | exact Hq1].
      * split; [exact Hs|]. split; [discriminate|]. auto.
    + assert (Hstep : forall opts w2, NoDup opts ->
                (forall flag, flag ∈ opts -> exists choice, option_mapping !! choice = Some flag) ->
                quiet w w2 ->
                match nmap_options_loop inp opts w2 with
                | (Ok opts', (inp', w')) =>
                    says_done (line :: inp) /\ opts' <> [] /\ NoDup opts' /\
                    (forall flag, flag ∈ opts' ->
                       exists choice, option_mapping !! choice = Some flag) /\
                    quiet w w'
                | (Raise e, (inp', _)) =>
                    e = EOFError /\ inp' = [] /\ ~ says_done (line :: inp)
                end).
      { intros opts w2 Hnd2 Hfl2 Hq2. specialize (IH opts w2 Hnd2 Hfl2).
        destruct (nmap_options_loop inp opts w2) as [[opts'|e] [inp' w']].
        - destruct IH as (Hs & Hne & Hnd' & Hfl' & Hq).
          split; [apply says_done_cons; now right|]. split; [exact Hne|].
          split; [exact Hnd'|]. split; [exact Hfl'|]. eapply quiet_trans; eassumption.
        - destruct IH as (He & Hi & Hs). split; [exact He|]. split; [exact Hi|].
          rewrite says_done_cons. tauto. }
      destruct (option_mapping !! PyStr.strip line) as [flag|] eqn:Hopt.
      * destruct (str_in flag nmap_options) eqn:Hin; cbn [negb].
        -- apply Hstep; [exact Hnd | exact Hflags |].
           apply quiet_log; [exact I | exact Hq1].
        -- apply Hstep.
           ++ apply NoDup_app. split; [exact Hnd|]. split; [|apply NoDup_singleton].
              intros x Hx Hx'. apply list_elem_of_singleton in Hx' as ->.
              apply str_in_elem_of in Hx. congruence.
           ++ intros x Hx. apply elem_of_app in Hx as [Hx|Hx]; [now apply Hflags|].
              apply list_elem_of_singleton in Hx as ->. eauto.
           ++ apply quiet_log; [exact I | exact Hq1].
      * apply Hstep; [exact Hnd | exact Hflags |].
        apply quiet_log; [exact I | exact Hq1].
Qed.

End OptionMenu.

(** X6. The option menu of the port scan ends with a list of flags exactly
    when the user types "done" at some point: the list is then not empty
    (the default, empty flag stands in when nothing was chosen), holds no
    flag twice, and holds only flags of the option table; no file was
    touched and nothing launched.  Every other answer, also an unknown or a
    repeated choice, only makes the prompt come again, and without "done"
    the menu ends with [EOFError] when the input runs out. *)
Theorem nmap_options_loop_result (inp : list string) (w : World) :
  match nmap_options_loop inp [] w with
  | (Ok opts, (inp', w')) =>
      says_done inp /\ opts <> [] /\ NoDup opts /\
      (forall flag, flag ∈ opts -> exists choice, option_mapping !! choice = Some flag) /\
      quiet w w'
  | (Raise e, (inp', _)) => e = EOFError /\ inp' = [] /\ ~ says_done inp
  end.
Proof.
  apply nmap_options_loop_cases; [constructor|]. intros flag H. inversion H.
Qed.

(** ** More on the selection sub-loop *)

Section SelectionMore.

Lemma list_remove_perm (x : Z) (l : list Z) : x ∈ l -> l ≡ₚ x :: list_remove x l.
Proof.
  induction l as [|y l IH]; intros Hin; [inversion Hin|].
  cbn [list_remove]. destruct (Z.eqb_spec x y) as [->|Hne]; [reflexivity|].
  apply elem_of_cons in Hin as [->|Hin]; [contradiction|].
  rewrite (IH Hin) at 1. apply Permutation_swap.
Qed.

Lemma select_visits_perm (inp : list string) :
  forall web_ports gobuster_ports web gob,
  (web, gob) ∈ select_visits inp web_ports gobuster_ports ->
  (web ++ gob)%list ≡ₚ (web_ports ++ gobuster_ports)%list.
Proof.
  induction inp as [|line inp IH]; intros web_ports gobuster_ports web gob;
    cbn [select_visits]; rewrite elem_of_cons.
  - intros [[= -> ->]|H]; [reflexivity | inversion H].
  - intros [[= -> ->]|H]; [reflexivity|].
    destruct (select_decide (PyStr.strip line) web_ports) as [|port| |e] eqn:Hdec;
      try (now inversion H).
    + apply select_decide_add in Hdec as (Hin & _).
      rewrite (IH _ _ _ _ H), app_assoc, <- Permutation_cons_append.
      change (port :: (list_remove port web_ports ++ gobuster_ports)%list)
        with ((port :: list_remove port web_ports) ++ gobuster_ports)%list.
      now rewrite <- (list_remove_perm port web_ports Hin).
    + now apply IH.
Qed.

Lemma select_ports_cases (path : scan_path) (inp : list string) :
  forall web_ports gobuster_ports w,
  match select_ports path inp web_ports gobuster_ports w with
  | (Ok (web, gob), (inp', w')) =>
      (web, gob) ∈ select_visits inp web_ports gobuster_ports /\ quiet w w'
  | (Raise e, _) => input_exn e
  end.
Proof.
  induction inp as [|line inp IH]; intros web_ports gobuster_ports w;
    cbn [select_ports select_visits]; [now left|].
  set (w1 := log _ (log _ (log _ w))).
  assert (Hq1 : quiet w w1) by (repeat (apply quiet_log; [exact I|]); apply quiet_refl).
  destruct (select_decide (PyStr.strip line) web_ports) as [|port| |e] eqn:Hdec.
  - split; [now left | exact Hq1].
  - match goal with |- context [select_ports path inp ?a ?b ?c] =>
      specialize (IH a b c); destruct (select_ports path inp a b c) as [[[web gob]|e] [inp' w']]
    end; [|exact IH].
    destruct IH as [Hin Hq]. split; [now right|].
    eapply quiet_trans; [|exact Hq]. apply quiet_log; [exact I | exact Hq1].
  - match goal with |- context [select_ports path inp ?a ?b ?c] =>
      specialize (IH a b c); destruct (select_ports path inp a b c) as [[[web gob]|e] [inp' w']]
    end; [|exact IH].
    destruct IH as [Hin Hq]. split; [now right|].
    eapply quiet_trans; [|exact Hq]. apply quiet_log; [exact I | exact Hq1].
  - right. unfold select_decide in Hdec.
    destruct (String.eqb (PyStr.strip line) "done"); [discriminate|].
    destruct (PyStr.isdigit (PyStr.strip line)); [|discriminate].
    destruct (PyStr.int (PyStr.strip line)) as [n|]; [|congruence].
    destruct (list_in n web_ports); discriminate.
Qed.








End SelectionMore.

(** X7. The selection sub-loop loses no port and invents none: at every
    turn the ports still available together with the ports selected so far
    are the detected ports, each as often as it was detected; when the
    loop ends on "done" it has touched no file and launched nothing, and
    otherwise it ends with [EOFError] or [ValueError]. *)
Theorem selection_conserves_ports (path : scan_path) (inp : list string)
    (web_ports : list Z) (w : World) :
  (forall web gob, (web, gob) ∈ select_visits inp web_ports [] ->
     (web ++ gob)%list ≡ₚ web_ports) /\
  match select_ports path inp web_ports [] w with
  | (Ok (web, gob), (inp', w')) => (web ++ gob)%list ≡ₚ web_ports /\ quiet w w'
  | (Raise e, _) => input_exn e
  end.
Proof.
  assert (Hv : forall web gob, (web, gob) ∈ select_visits inp web_ports [] ->
                 (web ++ gob)%list ≡ₚ web_ports).
  { intros web gob Hin. rewrite (select_visits_perm _ _ _ _ _ Hin). now rewrite app_nil_r. }
  split; [exact Hv|].
  pose proof (select_ports_cases path inp web_ports [] w) as H.
  destruct (select_ports path inp web_ports [] w) as [[[web gob]|e] [inp' w']]; [|exact H].
  destruct H as [Hin Hq]. split; [now apply Hv | exact Hq].
Qed.





(** ** More on the content-discovery loop and its menu *)

Section GobusterMore.

Variable E : Env.

Lemma prompted_log_print (text : string) (w : World) :
  prompted (log (Print text) w) = prompted w.
Proof. unfold prompted. rewrite trace_log_app, omap_app. cbn. apply app_nil_r. Qed.

Lemma prompted_log_prompt (text : string) (w : World) :
  prompted (log (Prompt text) w) = (prompted w ++ [text])%list.
Proof. unfold prompted. now rewrite trace_log_app, omap_app. Qed.

Lemma run_gobuster_missing_paths (ip_address : string) (web_ports : list pyval)
    (output_dir : string) :
  (forall path, exists msg, open_w E path = Some (FileNotFoundError msg)) ->
  forall inp w, (length web_ports <= length inp)%nat ->
  exists w',
    run_gobuster E ip_address web_ports output_dir inp w
      = (Ok tt, (drop (length web_ports) inp, w')) /\
    files w' = files w /\ launched w' = launched w /\
    prompted w' =
      (prompted w ++
       map (fun port => "Enter the path to your wordlist for port " +:+ py_str port +:+ ": ")
           web_ports)%list.
Proof.
  intros Hopen. induction web_ports as [|port ports IH]; intros inp w Hlen.
  - exists w. cbn. now rewrite app_nil_r.
  - destruct inp as [|line rest]; [cbn in Hlen; lia|]. cbn [length] in Hlen.
    cbn [run_gobuster]. unfold bind at 1.
    rewrite gobuster_port_unfold. cbv zeta. rewrite save_block.
    match goal with |- context [open_w E ?p] => destruct (Hopen p) as [msg ->] end.
    cbn [is_FileNotFoundError].
    match goal with |- context [run_gobuster E _ ports _ rest ?W] =>
      destruct (IH rest W ltac:(lia)) as (w' & -> & Hf & Hl & Hp) end.
    exists w'. split; [reflexivity|]. split; [exact Hf|]. split.
    + rewrite Hl, !launched_log by exact I.
      change (launched (tick ?x)) with (launched x). now rewrite launched_log by exact I.
    + rewrite Hp, !prompted_log_print.
      change (prompted (tick ?x)) with (prompted x).
      rewrite prompted_log_prompt. cbn [map]. now rewrite <- app_assoc.
Qed.

Lemma run_gobuster_eof (ip_address : string) (web_ports : list pyval) (output_dir : string) :
  works E ->
  forall inp w, (length inp < length web_ports)%nat ->
  exists w' port,
    web_ports !! length inp = Some port /\
    run_gobuster E ip_address web_ports output_dir inp w = (Raise EOFError, ([], w')) /\
    trace w' =
      (trace w ++
       scans_events E output_dir
         (map (fun v => (py_str v, gobuster_url ip_address v)) web_ports) inp (ticks w) ++
       [Prompt ("Enter the path to your wordlist for port " +:+ py_str port +:+ ": ")])%list.
Proof.
  intros HE. induction web_ports as [|port ports IH]; intros inp w Hlen; [cbn in Hlen; lia|].
  destruct inp as [|line rest].
  - eexists _, port. split; [reflexivity|]. cbn [run_gobuster]. unfold bind.
    rewrite gobuster_port_eof. split; reflexivity.
  - cbn [length] in Hlen. cbn [run_gobuster]. unfold bind.
    destruct (gobuster_port_works E HE ip_address port output_dir line rest w)
      as (w1 & -> & Htr & Htk).
    destruct (IH rest w1 ltac:(lia)) as (w' & p & Hp & -> & Htr').
    exists w', p. split; [exact Hp|]. split; [reflexivity|].
    rewrite Htr', Htr, Htk. cbn [map scans_events]. now rewrite <- !app_assoc.
Qed.

Lemma gobuster_menu_invalid (path : scan_path) (ip_address output_dir : string)
    (web_ports : list Z) (bad : list string) :
  Forall not_a_menu_choice bad ->
  forall inp w,
  exists w',
    gobuster_menu E path ip_address output_dir (bad ++ inp) web_ports w
      = gobuster_menu E path ip_address output_dir inp web_ports w' /\
    quiet w w' /\
    length (trace w') = (length (trace w) + 6 * length bad)%nat.
Proof.
  induction 1 as [|line bad (H1 & H2 & H3) _ IH]; intros inp w.
  - exists w. split; [reflexivity|]. split; [apply quiet_refl | cbn; lia].
  - cbn [app gobuster_menu].
    apply String.eqb_neq in H1, H2, H3. rewrite H1, H2, H3.
    match goal with |- context [gobuster_menu E _ _ _ (bad ++ inp)%list _ ?W] =>
      destruct (IH inp W) as (w' & -> & Hq & Hlen);
      assert (Hq0 : quiet w W)
        by (repeat (apply quiet_log; [exact I|]); apply quiet_refl);
      assert (Hl0 : length (trace W) = (length (trace w) + 6)%nat)
        by (rewrite !trace_log_app, !length_app; cbn; lia)
    end.
    exists w'. split; [reflexivity|]. split; [eapply quiet_trans; eassumption|].
    rewrite Hlen, Hl0. cbn [length]. lia.
Qed.

End GobusterMore.

(** X9. When no output file of the content-discovery loop can be opened
    because its path is missing, the loop still goes through every port: it
    asks for one wordlist per port, in the order of the ports, reports each
    failure, launches nothing, writes no file and returns normally. *)
Theorem run_gobuster_survives_missing_paths (E : Env) (ip_address : string)
    (web_ports : list pyval) (output_dir : string) (inp : list string) (w : World) :
  (forall path, exists msg, open_w E path = Some (FileNotFoundError msg)) ->
  (length web_ports <= length inp)%nat ->
  exists w',
    run_gobuster E ip_address web_ports output_dir inp w
      = (Ok tt, (drop (length web_ports) inp, w')) /\
    files w' = files w /\ launched w' = launched w /\
    prompted w' =
      (prompted w ++
       map (fun port => "Enter the path to your wordlist for port " +:+ py_str port +:+ ": ")
           web_ports)%list.
Proof. intros Hopen Hlen. now apply run_gobuster_missing_paths. Qed.

Lemma run_gobuster_survives_missing_paths_witness :
  exists w',
    run_gobuster Sample.env_no_dir "10.0.0.5" [PInt 80; PInt 443] "gone"
      ["/w/common.txt"; "/w/big.txt"; "more"] Sample.world0
      = (Ok tt, (drop (length [PInt 80; PInt 443]) ["/w/common.txt"; "/w/big.txt"; "more"], w')) /\
    files w' = files Sample.world0 /\ launched w' = launched Sample.world0 /\
    prompted w' =
      (prompted Sample.world0 ++
       map (fun port => "Enter the path to your wordlist for port " +:+ py_str port +:+ ": ")
           [PInt 80; PInt 443])%list.
Proof.
  apply (run_gobuster_survives_missing_paths Sample.env_no_dir "10.0.0.5" [PInt 80; PInt 443]
           "gone" ["/w/common.txt"; "/w/big.txt"; "more"] Sample.world0).
  - intros path. eexists. reflexivity.
  - cbn. lia.
Defined.

(** X10. When the input ends before every port has its wordlist, the
    content-discovery loop has scanned the ports that got one, in order,
    has asked for the wordlist of the next port, and stops there with
    [EOFError]: the ports after it are neither asked about nor scanned. *)
Theorem run_gobuster_stops_when_input_ends (E : Env) (ip_address : string)
    (web_ports : list pyval) (output_dir : string) (inp : list string) (w : World) :
  works E -> (length inp < length web_ports)%nat ->
  exists w' port,
    web_ports !! length inp = Some port /\
    run_gobuster E ip_address web_ports output_dir inp w = (Raise EOFError, ([], w')) /\
    trace w' =
      (trace w ++
       scans_events E output_dir
         (map (fun v => (py_str v, gobuster_url ip_address v)) web_ports) inp (ticks w) ++
       [Prompt ("Enter the path to your wordlist for port " +:+ py_str port +:+ ": ")])%list.
Proof. intros HE Hlen. now apply run_gobuster_eof. Qed.

Lemma run_gobuster_stops_when_input_ends_witness :
  exists w' port,
    [PInt 80; PInt 443; PInt 8080] !! length ["/w/common.txt"] = Some port /\
    run_gobuster Sample.env "10.0.0.5" [PInt 80; PInt 443; PInt 8080] "scans"
      ["/w/common.txt"] Sample.world0 = (Raise EOFError, ([], w')) /\
    trace w' =
      (trace Sample.world0 ++
       scans_events Sample.env "scans"
         (map (fun v => (py_str v, gobuster_url "10.0.0.5" v)) [PInt 80; PInt 443; PInt 8080])
         ["/w/common.txt"] (ticks Sample.world0) ++
       [Prompt ("Enter the path to your wordlist for port " +:+ py_str port +:+ ": ")])%list.
Proof.
  apply (run_gobuster_stops_when_input_ends Sample.env "10.0.0.5"
           [PInt 80; PInt 443; PInt 8080] "scans" ["/w/common.txt"] Sample.world0
           sample_env_works).
  cbn. lia.
Defined.

(** X11. Answers to the strategy menu other than "1", "2" and "3" are
    passed over, however many there are: each prints the menu again with
    the remark about invalid input (six lines), and the menu carries on
    with the rest of the input from a state with the same files, the same
    launches and the same clock. *)
Theorem gobuster_menu_repeats_on_invalid_answers (E : Env) (path : scan_path)
    (ip_address output_dir : string) (web_ports : list Z) (bad inp : list string)
    (w : World) :
  Forall not_a_menu_choice bad ->
  exists w',
    gobuster_menu E path ip_address output_dir (bad ++ inp) web_ports w
      = gobuster_menu E path ip_address output_dir inp web_ports w' /\
    quiet w w' /\
    length (trace w') = (length (trace w) + 6 * length bad)%nat.
Proof. intros Hbad. now apply gobuster_menu_invalid. Qed.

Lemma gobuster_menu_repeats_on_invalid_answers_witness :
  exists w',
    gobuster_menu Sample.env BothTools "10.0.0.5" "scans" (["4"; "yes"; ""] ++ ["3"]) [80]
      Sample.world0
      = gobuster_menu Sample.env BothTools "10.0.0.5" "scans" ["3"] [80] w' /\
    quiet Sample.world0 w' /\
    length (trace w') = (length (trace Sample.world0) + 6 * length ["4"; "yes"; ""])%nat.
Proof.
  apply (gobuster_menu_repeats_on_invalid_answers Sample.env BothTools "10.0.0.5" "scans"
           [80] ["4"; "yes"; ""] ["3"] Sample.world0).
  repeat constructor; discriminate.
Defined.

(** ** The port scan and what is made of its output *)

Section ScanAndParse.

Variable E : Env.

Lemma parse_no_web_line (f output : string) (inp : list string) (w : World) :
  files w !! f = Some output -> no_web_line output ->
  parse_nmap_output E f inp w = (Ok [], (inp, w)).
Proof.
  intros Hf Hno. rewrite (parse_nmap_output_present E f output inp w Hf).
  destruct (scan_lines_ok (readlines output) ∅) as (s & -> & Hs).
  { eapply Forall_impl; [exact Hno|]. intros line Hn Hweb. now destruct Hn. }
  assert (s = ∅) as ->; [|now rewrite set_order_empty].
  apply set_eq. intros n. rewrite Hs. split.
  - intros [H|(line & Hin & Hweb & _)]; [exact H|].
    unfold no_web_line in Hno. rewrite Forall_forall in Hno. now destruct (Hno line Hin).
  - intros H. now left.
Qed.

Lemma run_nmap_launch (ip_address output_dir : string) (inp : list string) (w : World) :
  says_done inp ->
  open_w E (path_join output_dir
              (nmap_output_name (clean_url ip_address) (clock E (ticks w)))) = None ->
  exists opts inp' w1 argv,
    run_nmap E ip_address output_dir inp w =
      match run_process E argv with
      | Ran output =>
          (Ok (path_join output_dir
                 (nmap_output_name (clean_url ip_address) (clock E (ticks w)))),
           (inp', log (Print (nl +:+ "Nmap scan completed. Results saved to: " +:+
                              path_join output_dir
                                (nmap_output_name (clean_url ip_address) (clock E (ticks w)))))
                    (write_file
                       (path_join output_dir
                          (nmap_output_name (clean_url ip_address) (clock E (ticks w))))
                       output w1)))
      | LaunchFailed e =>
          if is_FileNotFoundError e
          then (Ok (path_join output_dir
                      (nmap_output_name (clean_url ip_address) (clock E (ticks w)))),
                (inp', log (Print ("Error saving results: " +:+ exn_str e)) w1))
          else (Raise e, (inp', w1))
      end /\
    argv = "nmap" :: PyStr.split_ws (PyStr.join " " opts +:+ String " " ip_address) /\
    files w1 !! path_join output_dir
                  (nmap_output_name (clean_url ip_address) (clock E (ticks w))) = Some "" /\
    launched w1 = (launched w ++ [argv])%list /\
    ticks w1 = S (ticks w).
Proof.
  intros Hd Hopen.
  destruct (run_nmap_unfold E ip_address output_dir inp w Hd)
    as (opts & inp' & w0 & Hrun & Ht & Hf & Hl).
  rewrite Hrun, run_nmap_scan_unfold. cbv zeta. rewrite save_block, Ht, Hopen. cbv zeta.
  eexists opts, inp', _, _. split; [|split; [apply (split_ws_space "nmap")|]].
  - destruct (run_process E _) as [output|e]; [reflexivity|].
    destruct (is_FileNotFoundError e); reflexivity.
  - split; [apply lookup_insert_eq|]. split; [|cbn; now rewrite Ht].
    unfold launched at 1. rewrite trace_log_app, omap_app. cbn [omap].
    change (omap _ (trace (write_file ?p ?t ?x))) with (launched x).
    rewrite launched_log by exact I. change (launched (tick w0)) with (launched w0).
    now rewrite Hl.
Qed.

End ScanAndParse.

(** X12. After a port scan that could be written and launched, the result
    file holds what the tool printed, whatever the file held before.
    Parsing the path that [run_nmap] returned then goes by the candidate
    lines of that output: when the token before the first "/" of every
    candidate line is an integer, the parser returns exactly those
    integers, each once; when the token of some candidate line is no
    integer, it raises [ValueError].  This is stated through the lines the
    parser reads, and again for an output given as its list of lines. *)
Theorem scan_output_is_what_gets_parsed (E : Env) (ip_address output_dir : string)
    (inp : list string) (w : World) (output : string) :
  says_done inp ->
  open_w E (path_join output_dir
              (nmap_output_name (clean_url ip_address) (clock E (ticks w)))) = None ->
  (forall args, run_process E ("nmap" :: args) = Ran output) ->
  exists file inp' w1,
    run_nmap E ip_address output_dir inp w = (Ok file, (inp', w1)) /\
    files w1 !! file = Some output /\
    (Forall token_ok (readlines output) ->
     exists ports,
       parse_nmap_output E file inp' w1 = (Ok ports, (inp', w1)) /\ NoDup ports /\
       forall n, n ∈ ports <-> exists line, line ∈ readlines output /\ line_port line n) /\
    (Exists (fun line => ~ token_ok line) (readlines output) ->
     parse_nmap_output E file inp' w1 = (Raise ValueError, (inp', w1))) /\
    (forall lines,
       Forall one_line lines -> output = text_of_lines lines ->
       (Forall token_ok lines ->
        exists ports,
          parse_nmap_output E file inp' w1 = (Ok ports, (inp', w1)) /\ NoDup ports /\
          forall n, n ∈ ports <-> exists line, line ∈ lines /\ line_port line n) /\
       (Exists (fun line => ~ token_ok line) lines ->
        parse_nmap_output E file inp' w1 = (Raise ValueError, (inp', w1)))).
Proof.
  intros Hd Hopen Hrun.
  destruct (run_nmap_launch E ip_address output_dir inp w Hd Hopen)
    as (opts & inp' & w1 & argv & -> & -> & _ & _ & _).
  rewrite Hrun.
  eexists _, inp', _. split; [reflexivity|].
  assert (Hf : forall x, files (log x (write_file
                 (path_join output_dir
                    (nmap_output_name (clean_url ip_address) (clock E (ticks w)))) output w1))
               !! path_join output_dir
                    (nmap_output_name (clean_url ip_address) (clock E (ticks w)))
               = Some output) by (intros x; apply lookup_insert_eq).
  split; [apply Hf|]. split; [|split].
  - intros Hok. rewrite (parse_nmap_output_present E _ output inp' _ (Hf _)).
    destruct (scan_lines_ok (readlines output) ∅ Hok) as (s & -> & Hs).
    exists (set_order E s). split; [reflexivity|]. split.
    + rewrite (set_order_perm E s). apply NoDup_elements.
    + intros n. rewrite (set_order_perm E s), elem_of_elements, Hs.
      split; [intros [H|H]; [|exact H] | auto].
      now apply not_elem_of_empty in H.
  - intros Hbad. rewrite (parse_nmap_output_present E _ output inp' _ (Hf _)).
    now rewrite (scan_lines_raise _ ∅ Hbad).
  - intros lines Hl ->. apply (parse_text_of_lines E _ lines inp' _ Hl (Hf _)).
Qed.

Lemma scan_output_is_what_gets_parsed_witness :
  exists file inp' w1,
    run_nmap Sample.env "10.0.0.5" "scans" ["4"; "done"] Sample.world0
      = (Ok file, (inp', w1)) /\
    files w1 !! file = Some Sample.scan_text /\
    (Forall token_ok (readlines Sample.scan_text) ->
     exists ports,
       parse_nmap_output Sample.env file inp' w1 = (Ok ports, (inp', w1)) /\ NoDup ports /\
       forall n, n ∈ ports <->
         exists line, line ∈ readlines Sample.scan_text /\ line_port line n) /\
    (Exists (fun line => ~ token_ok line) (readlines Sample.scan_text) ->
     parse_nmap_output Sample.env file inp' w1 = (Raise ValueError, (inp', w1))) /\
    (forall lines,
       Forall one_line lines -> Sample.scan_text = text_of_lines lines ->
       (Forall token_ok lines ->
        exists ports,
          parse_nmap_output Sample.env file inp' w1 = (Ok ports, (inp', w1)) /\ NoDup ports /\
          forall n, n ∈ ports <-> exists line, line ∈ lines /\ line_port line n) /\
       (Exists (fun line => ~ token_ok line) lines ->
        parse_nmap_output Sample.env file inp' w1 = (Raise ValueError, (inp', w1)))).
Proof.
  apply (scan_output_is_what_gets_parsed Sample.env "10.0.0.5" "scans"
           ["4"; "done"] Sample.world0 Sample.scan_text).
  - exists "done". split; [right; left | reflexivity].
  - reflexivity.
  - intros args. reflexivity.
Defined.

(** X13. When the output file of the port scan could be opened but the
    tool could not be launched, an empty result file is left behind at the
    path of the scan, replacing whatever was there: this is so when the
    launch error is [FileNotFoundError], which [run_nmap] reports before it
    returns the path, and when it is any other error, which [run_nmap]
    lets through. *)
Theorem failed_launch_leaves_empty_file (E : Env) (ip_address output_dir : string)
    (inp : list string) (w : World) :
  says_done inp ->
  open_w E (path_join output_dir
              (nmap_output_name (clean_url ip_address) (clock E (ticks w)))) = None ->
  (forall argv, exists e, run_process E argv = LaunchFailed e) ->
  exists r inp' w',
    run_nmap E ip_address output_dir inp w = (r, (inp', w')) /\
    files w' !! path_join output_dir
                  (nmap_output_name (clean_url ip_address) (clock E (ticks w))) = Some "" /\
    match r with
    | Ok file =>
        file = path_join output_dir
                 (nmap_output_name (clean_url ip_address) (clock E (ticks w)))
    | Raise e => is_FileNotFoundError e = false
    end.
Proof.
  intros Hd Hopen Hrun.
  destruct (run_nmap_launch E ip_address output_dir inp w Hd Hopen)
    as (opts & inp' & w1 & argv & -> & _ & Hf & _ & _).
  destruct (Hrun argv) as [e ->].
  destruct (is_FileNotFoundError e) eqn:He; eexists _, _, _; (split; [reflexivity|]);
    (split; [exact Hf|]); [reflexivity | exact He].
Qed.

Lemma failed_launch_leaves_empty_file_witness :
  exists r inp' w',
    run_nmap Sample.env_no_tool "10.0.0.5" "scans" ["done"]
      (Sample.world_with "scans/nmap_scan_10.0.0.5_2024_01_01_00_00_00.txt" Sample.scan_text)
      = (r, (inp', w')) /\
    files w' !! path_join "scans"
                  (nmap_output_name (clean_url "10.0.0.5")
                     (clock Sample.env_no_tool
                        (ticks (Sample.world_with
                                  "scans/nmap_scan_10.0.0.5_2024_01_01_00_00_00.txt"
                                  Sample.scan_text)))) = Some "" /\
    match r with
    | Ok file =>
        file = path_join "scans"
                 (nmap_output_name (clean_url "10.0.0.5")
                    (clock Sample.env_no_tool
                       (ticks (Sample.world_with
                                 "scans/nmap_scan_10.0.0.5_2024_01_01_00_00_00.txt"
                                 Sample.scan_text))))
    | Raise e => is_FileNotFoundError e = false
    end.
Proof.
  apply (failed_launch_leaves_empty_file Sample.env_no_tool "10.0.0.5" "scans" ["done"]
           (Sample.world_with "scans/nmap_scan_10.0.0.5_2024_01_01_00_00_00.txt"
              Sample.scan_text)).
  - exists "done". split; [left | reflexivity].
  - reflexivity.
  - intros argv. eexists. reflexivity.
Defined.

(** X14. When the port scan ran and its output has no candidate web
    service line, both scan paths of [main] end right after the scan: no
    further input is read, nothing more is launched and no file is
    written. *)
Theorem no_web_port_means_no_gobuster (E : Env) (path : scan_path)
    (ip_address output_dir : string) (inp : list string) (w : World) (output : string) :
  says_done inp ->
  open_w E (path_join output_dir
              (nmap_output_name (clean_url ip_address) (clock E (ticks w)))) = None ->
  (forall args, run_process E ("nmap" :: args) = Ran output) ->
  no_web_line output ->
  exists file inp' w1 w',
    run_nmap E ip_address output_dir inp w = (Ok file, (inp', w1)) /\
    scan_then_gobuster E path ip_address output_dir inp w = (Ok tt, (inp', w')) /\
    quiet w1 w' /\
    length (launched w1) = S (length (launched w)).
Proof.
  intros Hd Hopen Hrun Hno. unfold scan_then_gobuster. unfold bind at 1 2.
  destruct (run_nmap_launch E ip_address output_dir inp w Hd Hopen)
    as (opts & inp' & w1 & argv & -> & -> & _ & Hl & _).
  rewrite Hrun.
  match goal with |- context [parse_nmap_output E ?f inp' ?W] =>
    rewrite (parse_no_web_line E f output inp' W (lookup_insert_eq _ _ _) Hno)
  end.
  assert (Hlen : forall x p t,
            length (launched (log (Print x) (write_file p t w1))) = S (length (launched w))).
  { intros x p t. rewrite launched_log by exact I.
    change (launched (write_file p t w1)) with (launched w1).
    rewrite Hl, length_app. cbn. lia. }
  destruct path; eexists _, inp', _, _; (split; [reflexivity|]);
    (split; [reflexivity|]); (split; [|apply Hlen]).
  - apply quiet_log; [exact I | apply quiet_refl].
  - apply quiet_refl.
Qed.

Lemma no_web_port_means_no_gobuster_witness :
  exists file inp' w1 w',
    run_nmap Sample.env_quiet_host "10.0.0.5" "scans" ["done"; "1"] Sample.world0
      = (Ok file, (inp', w1)) /\
    scan_then_gobuster Sample.env_quiet_host BothTools "10.0.0.5" "scans" ["done"; "1"]
      Sample.world0 = (Ok tt, (inp', w')) /\
    quiet w1 w' /\
    length (launched w1) = S (length (launched Sample.world0)).
Proof.
  apply (no_web_port_means_no_gobuster Sample.env_quiet_host BothTools "10.0.0.5" "scans"
           ["done"; "1"] Sample.world0 ("22/tcp open ssh" +:+ nl)).
  - exists "done". split; [left | reflexivity].
  - reflexivity.
  - intros args. reflexivity.
  - repeat constructor. intros [_ [H|H]]; apply contains_occurs in H; discriminate.
Defined.

(** ** What can end the program *)

Section Containment.

Variable E : Env.
Hypothesis HE : works E.
Hypothesis Hmk : makedirs_raises_OSError E.

Lemma raises_only_ret {A} (P : exn -> Prop) (a : A) : raises_only P (ret a).
Proof. intros inp w. exact I. Qed.

Lemma raises_only_print (P : exn -> Prop) (text : string) : raises_only P (print text).
Proof. intros inp w. exact I. Qed.

Lemma raises_only_input (prompt : string) : raises_only input_exn (input prompt).
Proof. intros [|line inp] w; cbn; [now left | exact I]. Qed.

Lemma raises_only_bind {A B} (P : exn -> Prop) (m : IO A) (k : A -> IO B) :
  raises_only P m -> (forall a, raises_only P (k a)) -> raises_only P (bind m k).
Proof.
  intros Hm Hk inp w. unfold bind. specialize (Hm inp w).
  destruct (m inp w) as [[a|e] [inp' w']]; [apply Hk | exact Hm].
Qed.

Lemma raises_only_try_except {A} (P Q : exn -> Prop) (body : IO A)
    (handles : exn -> bool) (handler : exn -> IO A) :
  raises_only Q body ->
  (forall e, Q e -> handles e = true \/ P e) ->
  (forall e, raises_only P (handler e)) ->
  raises_only P (try_except body handles handler).
Proof.
  intros Hb Hq Hh inp w. unfold try_except. specialize (Hb inp w).
  destruct (body inp w) as [[a|e] [inp' w']]; [exact I|].
  cbn in Hb. destruct (handles e) eqn:He; [apply Hh|].
  cbn. destruct (Hq e Hb) as [H|H]; [congruence | exact H].
Qed.

Lemma raises_only_print_all (P : exn -> Prop) (texts : list string) :
  raises_only P (print_all texts).
Proof.
  induction texts as [|text texts IH]; [apply raises_only_ret|].
  cbn [print_all]. apply raises_only_bind; [apply raises_only_print | intros _; exact IH].
Qed.

Lemma raises_only_open_r (path : string) :
  raises_only (fun e => is_FileNotFoundError e = true) (open_r path).
Proof. intros inp w. unfold open_r. now destruct (files w !! path). Qed.

Lemma raises_only_get_output_directory : raises_only input_exn (get_output_directory E).
Proof.
  intros inp w.
  pose proof (get_output_directory_cases_aux E Hmk (length inp) inp w (le_n _)) as H.
  destruct (get_output_directory E inp w) as [[dir|e] [inp' w']]; [exact I|].
  destruct H as [-> _]. now left.
Qed.

Lemma raises_only_run_nmap_scan (ip_address output_dir : string) (nmap_options : list string) :
  raises_only input_exn (run_nmap_scan E ip_address output_dir nmap_options).
Proof.
  intros inp w. rewrite run_nmap_scan_unfold. cbv zeta. rewrite save_block.
  destruct HE as [Hopen Hrun]. rewrite Hopen. cbv zeta.
  match goal with |- context [run_process E ?argv] => destruct (Hrun argv) as [output ->] end.
  exact I.
Qed.

Lemma raises_only_run_nmap (ip_address output_dir : string) :
  raises_only input_exn (run_nmap E ip_address output_dir).
Proof.
  unfold run_nmap.
  repeat (apply raises_only_bind; [apply raises_only_print | intros _]).
  apply raises_only_bind; [|intros opts; apply raises_only_run_nmap_scan].
  intros inp w. pose proof (nmap_options_loop_cases inp [] w (@NoDup_nil_2 string)) as H.
  destruct (nmap_options_loop inp [] w) as [[opts|e] [inp' w']]; [exact I|].
  destruct H as [-> _]; [|now left]. intros flag Hin. inversion Hin.
Qed.

Lemma raises_only_parse_nmap_output (nmap_output_file : string) :
  raises_only input_exn (parse_nmap_output E nmap_output_file).
Proof.
  intros inp w. destruct (files w !! nmap_output_file) as [text|] eqn:Hf.
  - rewrite (parse_nmap_output_present E _ text inp w Hf).
    destruct (scan_lines (readlines text) ∅) as [s|e] eqn:Hs; [exact I|].
    right. eapply scan_lines_only_ValueError, Hs.
  - now rewrite (parse_nmap_output_missing E _ inp w Hf).
Qed.

Lemma raises_only_run_gobuster (ip_address : string) (web_ports : list pyval)
    (output_dir : string) :
  raises_only input_exn (run_gobuster E ip_address web_ports output_dir).
Proof.
  intros inp w. destruct (le_lt_dec (length web_ports) (length inp)) as [Hle|Hlt].
  - destruct (run_gobuster_trace E HE ip_address web_ports output_dir inp w Hle)
      as (w' & -> & _). exact I.
  - destruct (run_gobuster_eof E ip_address web_ports output_dir HE inp w Hlt)
      as (w' & port & _ & -> & _). now left.
Qed.

Lemma raises_only_gobuster_menu (path : scan_path) (ip_address output_dir : string)
    (web_ports : list Z) :
  raises_only input_exn
    (fun inp w => gobuster_menu E path ip_address output_dir inp web_ports w).
Proof.
  intros inp. induction inp as [|line inp IH]; intros w; [now left|].
  cbn [gobuster_menu].
  destruct (String.eqb (PyStr.strip line) "1").
  { apply (raises_only_bind input_exn);
      [apply raises_only_print | intros _; apply raises_only_run_gobuster]. }
  destruct (String.eqb (PyStr.strip line) "2").
  { match goal with |- context [select_ports path inp web_ports [] ?W] =>
      pose proof (select_ports_cases path inp web_ports [] W) as Hsel;
      destruct (select_ports path inp web_ports [] W) as [[[web gob]|e] [inp' w']]
    end; [|exact Hsel].
    destruct gob as [|port gob]; [exact I|].
    apply (raises_only_bind input_exn);
      [apply raises_only_print | intros _; apply raises_only_run_gobuster]. }
  destruct (String.eqb (PyStr.strip line) "3"); [exact I|]. apply IH.
Qed.

Lemma raises_only_scan_then_gobuster (path : scan_path) (ip_address output_dir : string) :
  raises_only input_exn (scan_then_gobuster E path ip_address output_dir).
Proof.
  unfold scan_then_gobuster.
  apply raises_only_bind; [apply raises_only_run_nmap | intros file].
  apply raises_only_bind; [apply raises_only_parse_nmap_output | intros web_ports].
  destruct web_ports as [|port ports].
  - destruct path; [apply raises_only_print | apply raises_only_ret].
  - repeat (apply raises_only_bind; [apply raises_only_print | intros _]).
    apply raises_only_bind.
    + eapply raises_only_try_except.
      * apply raises_only_bind; [apply raises_only_open_r | intros text].
        apply raises_only_bind; [apply raises_only_print_all | intros _].
        apply raises_only_ret.
      * intros e He. now left.
      * intros e. apply raises_only_bind; [apply raises_only_print | intros _].
        apply raises_only_ret.
    + intros [|]; [apply raises_only_gobuster_menu | apply raises_only_ret].
Qed.

Lemma raises_only_gobuster_only (ip_address output_dir : string) :
  raises_only input_exn (gobuster_only E ip_address output_dir).
Proof.
  unfold gobuster_only.
  apply raises_only_bind; [apply raises_only_print | intros _].
  apply raises_only_bind; [apply raises_only_input | intros line].
  apply raises_only_run_gobuster.
Qed.

Lemma raises_only_main : raises_only input_exn (main E).
Proof.
  unfold main.
  repeat (apply raises_only_bind; [apply raises_only_print | intros _]).
  apply raises_only_bind; [apply raises_only_input | intros line].
  destruct (str_in (PyStr.strip line) ["1"; "2"; "3"]); [|apply raises_only_print].
  apply raises_only_bind; [apply raises_only_input | intros line2].
  apply raises_only_bind; [apply raises_only_get_output_directory | intros dir].
  destruct (String.eqb (PyStr.strip line) "1"); [apply raises_only_scan_then_gobuster|].
  destruct (String.eqb (PyStr.strip line) "2"); [apply raises_only_gobuster_only|].
  destruct (String.eqb (PyStr.strip line) "3"); [apply raises_only_scan_then_gobuster|].
  apply raises_only_ret.
Qed.

End Containment.

(** X15. On a machine where every output file can be opened, every tool
    starts and [makedirs] fails with operating-system errors only, the
    whole program ends normally or with one of two exceptions: [EOFError],
    when the input runs out at a prompt, or [ValueError], when [int] is
    given a candidate line's token or a port entry that is no integer.
    No other exception leaves [main], whatever the user types and whatever
    the tools print. *)
Theorem main_stops_only_on_input_errors (E : Env) (inp : list string) (w : World) :
  works E -> makedirs_raises_OSError E ->
  match fst (main E inp w) with
  | Ok _ => True
  | Raise e => e = EOFError \/ e = ValueError
  end.
Proof. intros HE Hmk. exact (raises_only_main E HE Hmk inp w). Qed.

Lemma main_stops_only_on_input_errors_witness :
  match fst (main Sample.env ["3"; "10.0.0.5"; "."; "done"; "2"; "80"] Sample.world0) with
  | Ok _ => True
  | Raise e => e = EOFError \/ e = ValueError
  end.
Proof.
  apply (main_stops_only_on_input_errors Sample.env
           ["3"; "10.0.0.5"; "."; "done"; "2"; "80"] Sample.world0 sample_env_works).
  intros path e H. discriminate.
Defined.

(** ** What the runners launch *)

Section Launches.

Variable E : Env.

Lemma nmap_options_loop_flags (inp : list string) :
  says_done inp ->
  forall nmap_options w,
  exists inp' w',
    nmap_options_loop inp nmap_options w =
      (Ok (match distinct_after nmap_options
                   (omap (fun choice => option_mapping !! choice) (answers_before_done inp))
           with
           | [] => [""]
           | flags => flags
           end),
       (inp', w')) /\
    quiet w w'.
Proof.
  induction inp as [|line inp IH]; intros Hd nmap_options w.
  - destruct Hd as (l & Hin & _). inversion Hin.
  - cbn [nmap_options_loop answers_before_done]. set (w1 := log _ w).
    assert (Hq1 : quiet w w1) by (apply quiet_log; [exact I | apply quiet_refl]).
    destruct (String.eqb_spec (PyStr.strip line) "done") as [Hdone|Hdone].
    + cbn [omap list_omap distinct_after]. destruct nmap_options; eexists _, _;
        (split; [reflexivity|]); [apply quiet_log; [exact I|]|]; exact Hq1.
    + apply says_done_cons in Hd as [Hd|Hd]; [contradiction|].
      change (omap ?f (?x :: ?l)) with (match f x with Some y => y :: omap f l | None => omap f l end).
      cbv beta.
      destruct (option_mapping !! PyStr.strip line) as [flag|].
      * cbn [distinct_after]. destruct (str_in flag nmap_options); cbn [negb];
          match goal with |- context [nmap_options_loop inp ?o ?W] =>
            destruct (IH Hd o W) as (inp' & w' & -> & Hq) end;
          eexists _, _; (split; [reflexivity|]);
          (eapply quiet_trans; [|exact Hq]); (apply quiet_log; [exact I | exact Hq1]).
      * match goal with |- context [nmap_options_loop inp ?o ?W] =>
          destruct (IH Hd o W) as (inp' & w' & -> & Hq) end.
        eexists _, _. split; [reflexivity|].
        eapply quiet_trans; [|exact Hq]. apply quiet_log; [exact I | exact Hq1].
Qed.

Lemma run_nmap_launches (ip_address output_dir : string) (inp : list string) (w : World) :
  says_done inp ->
  open_w E (path_join output_dir
              (nmap_output_name (clean_url ip_address) (clock E (ticks w)))) = None ->
  exists r inp' w',
    run_nmap E ip_address output_dir inp w = (r, (inp', w')) /\
    launched w' = (launched w ++ [nmap_argv (chosen_flags inp) ip_address])%list /\
    Exec (nmap_argv (chosen_flags inp) ip_address)
         (path_join output_dir
            (nmap_output_name (clean_url ip_address) (clock E (ticks w)))) ∈ trace w'.
Proof.
  intros Hd Hopen. unfold run_nmap.
  unfold bind at 1 2 3 4 5 6 7 8 9 10 11 12 13 14. cbn [print].
  match goal with |- context [nmap_options_loop inp [] ?W] =>
    destruct (nmap_options_loop_flags inp Hd [] W) as (inp' & w0 & Hloop & Hq0);
    pose proof (nmap_options_loop_cases inp [] W (@NoDup_nil_2 string)) as Hcases;
    assert (HqW : quiet w W)
      by (repeat (apply quiet_log; [exact I|]); apply quiet_refl)
  end.
  rewrite Hloop in Hcases |- *. fold (chosen_flags inp) in *.
  destruct Hcases as (_ & _ & _ & Hflags & _); [intros flag Hin; inversion Hin|].
  destruct (quiet_trans _ _ _ HqW Hq0) as (Hf & Hl & Ht).
  rewrite run_nmap_scan_unfold. cbv zeta. rewrite save_block, Ht, Hopen. cbv zeta.
  rewrite (split_ws_nmap_command _ ip_address Hflags).
  assert (Hargv : nmap_argv (match chosen_flags inp with [] => [""] | flags => flags end)
                    ip_address = nmap_argv (chosen_flags inp) ip_address).
  { destruct (chosen_flags inp); reflexivity. }
  rewrite Hargv.
  set (file := path_join output_dir _).
  set (argv := nmap_argv (chosen_flags inp) ip_address).
  assert (Hl1 : forall x, launched (log (Exec argv file) (write_file file "" x)) =
                          (launched x ++ [argv])%list).
  { intros x. unfold launched. now rewrite trace_log_app, omap_app. }
  assert (Hin1 : forall x, Exec argv file ∈ trace (log (Exec argv file) x)).
  { intros x. rewrite trace_log_app. apply elem_of_app. right. now left. }
  destruct (run_process E argv) as [output|e]; [|destruct (is_FileNotFoundError e)];
    eexists _, _, _; (split; [reflexivity|]).
  - split.
    + rewrite launched_log by exact I.
      change (launched (write_file ?p ?t ?x)) with (launched x).
      rewrite Hl1, launched_log by exact I. change (launched (tick w0)) with (launched w0).
      now rewrite Hl.
    + rewrite trace_log_app. apply elem_of_app. left. apply Hin1.
  - split.
    + rewrite launched_log, Hl1, launched_log by exact I.
      change (launched (tick w0)) with (launched w0). now rewrite Hl.
    + rewrite trace_log_app. apply elem_of_app. left. apply Hin1.
  - split.
    + rewrite Hl1, launched_log by exact I.
      change (launched (tick w0)) with (launched w0). now rewrite Hl.
    + apply Hin1.
Qed.

Lemma launched_scans_events (ip_address output_dir : string) (web_ports : list pyval) :
  forall lines n,
  omap (fun e => match e with Exec argv _ => Some argv | _ => None end)
       (scans_events E output_dir
          (map (fun v => (py_str v, gobuster_url ip_address v)) web_ports) lines n) =
  zip_with (fun port line => gobuster_argv (gobuster_url ip_address port) line)
           web_ports lines.
Proof.
  induction web_ports as [|port ports IH]; intros lines n; [reflexivity|].
  destruct lines as [|line lines]; [reflexivity|].
  cbn [map scans_events zip_with]. rewrite omap_app, IH.
  unfold scan_events, gobuster_argv. cbn [omap list_omap app]. f_equal.
  apply (split_ws_gobuster_command (gobuster_url ip_address port) (PyStr.strip line)).
Qed.

End Launches.

(** X1. When its output file opens, [run_nmap] launches one subprocess,
    with its standard output in the file whose path it constructed, and the
    argument vector of that launch is "nmap", then the flags of the valid
    choices typed before "done", each once, in the order in which they were
    first chosen and without the empty flag of the default scan, then the
    target cut at its white space: a target with a blank in it becomes
    several arguments. *)
Theorem run_nmap_launches_chosen_flags (E : Env) (ip_address output_dir : string)
    (inp : list string) (w : World) :
  says_done inp ->
  open_w E (path_join output_dir
              (nmap_output_name (clean_url ip_address) (clock E (ticks w)))) = None ->
  exists r inp' w',
    run_nmap E ip_address output_dir inp w = (r, (inp', w')) /\
    launched w' = (launched w ++ [nmap_argv (chosen_flags inp) ip_address])%list /\
    Exec (nmap_argv (chosen_flags inp) ip_address)
         (path_join output_dir
            (nmap_output_name (clean_url ip_address) (clock E (ticks w)))) ∈ trace w'.
Proof. intros Hd Hopen. now apply run_nmap_launches. Qed.

Lemma run_nmap_launches_chosen_flags_witness :
  exists r inp' w',
    run_nmap Sample.env "10.0.0.5 -oN x" "scans" ["4"; "5"; "10"; "4"; "done"] Sample.world0
      = (r, (inp', w')) /\
    launched w' =
      (launched Sample.world0 ++ [["nmap"; "-sV"; "-n"; "10.0.0.5"; "-oN"; "x"]])%list /\
    Exec ["nmap"; "-sV"; "-n"; "10.0.0.5"; "-oN"; "x"]
         "scans/nmap_scan_10.0.0.5_-oN_x_2024_01_01_00_00_00.txt" ∈ trace w'.
Proof.
  apply (run_nmap_launches_chosen_flags Sample.env "10.0.0.5 -oN x" "scans"
           ["4"; "5"; "10"; "4"; "done"] Sample.world0).
  - exists "done". split; [do 4 right; left | reflexivity].
  - reflexivity.
Defined.

(** X2. On a machine where files open and tools start, [run_gobuster]
    launches one subprocess per port, in the order of the ports, and the
    argument vector of each launch is "gobuster", "dir", "-u", the URL of
    the port cut at its white space, "-w", the wordlist line cut at its
    white space: a wordlist path with a blank in it reaches the tool as
    several arguments. *)
Theorem run_gobuster_launches_split_commands (E : Env) (ip_address : string)
    (web_ports : list pyval) (output_dir : string) (inp : list string) (w : World) :
  works E -> (length web_ports <= length inp)%nat ->
  exists w',
    run_gobuster E ip_address web_ports output_dir inp w
      = (Ok tt, (drop (length web_ports) inp, w')) /\
    launched w' =
      (launched w ++
       zip_with (fun port line => gobuster_argv (gobuster_url ip_address port) line)
                web_ports inp)%list.
Proof.
  intros HE Hlen.
  destruct (run_gobuster_trace E HE ip_address web_ports output_dir inp w Hlen)
    as (w' & Hrun & Htr).
  exists w'. split; [exact Hrun|]. unfold launched at 1.
  now rewrite Htr, omap_app, launched_scans_events.
Qed.

Lemma run_gobuster_launches_split_commands_witness :
  exists w',
    run_gobuster Sample.env "10.0.0.5" [PInt 80; PInt 443] "scans"
      ["/w/my list.txt"; "/w/big.txt"] Sample.world0 = (Ok tt, ([], w')) /\
    launched w' =
      (launched Sample.world0 ++
       [ ["gobuster"; "dir"; "-u"; "http://10.0.0.5:80"; "-w"; "/w/my"; "list.txt"];
         ["gobuster"; "dir"; "-u"; "https://10.0.0.5:443"; "-w"; "/w/big.txt"] ])%list.
Proof.
  apply (run_gobuster_launches_split_commands Sample.env "10.0.0.5" [PInt 80; PInt 443]
           "scans" ["/w/my list.txt"; "/w/big.txt"] Sample.world0 sample_env_works).
  cbn. lia.
Defined.
